(** * mcp-ai-terminal: the command execution orchestrator

    A shallow embedding of [mcp-ai-terminal-server.py] (class
    [AISafeTerminalServer]) and the properties its specification states.

    Conventions of the embedding.
    - A Python [str] is a [string]; a character is a code point below 256
      (Latin-1), for which [lower], [isspace], [isalnum], [split] and
      [splitlines] are transcribed below.  The few characters outside that
      range occur only inside fixed message literals, where they are spelled
      by their UTF-8 bytes and are never counted or sliced.
    - The argument dictionary of a tool call is a [gmap string pyval].
    - The operating system (clock, output directory, child processes,
      liveness probe) is an explicit [World]; the methods are computations in
      a state monad whose outcomes are a value, a raised exception or a call
      that never returns.
    - The library calls behave as in CPython 3.11 on a POSIX system whose
      locale encodes text as UTF-8: every text can be written to a file, but
      not every file can be read back as text. *)

From Stdlib Require Import ZArith Ascii String Lia Bool.
From stdpp Require Import base option list sorting gmap strings pretty.

Local Open Scope Z_scope.

(** ** Python strings *)

Module PyStr.

Definition code (c : ascii) : N := N_of_ascii c.

(** [str.lower] on one character: A-Z and the capital letters of the
    Latin-1 supplement (U+00C0..U+00DE without the multiplication sign). *)
Definition lower_char (c : ascii) : ascii :=
  let n := code c in
  if ((65 <=? n) && (n <=? 90) ||
      (192 <=? n) && (n <=? 222) && negb (n =? 215))%N
  then ascii_of_N (n + 32) else c.

Fixpoint lower (s : string) : string :=
  match s with
  | EmptyString => EmptyString
  | String c s' => String (lower_char c) (lower s')
  end.

(** [str.isspace] on one character; the separators of [str.split()] and
    the characters removed by [str.strip()]. *)
Definition isspace (c : ascii) : bool :=
  let n := code c in
  ((9 <=? n) && (n <=? 13) || (28 <=? n) && (n <=? 32) ||
   (n =? 133) || (n =? 160))%N.

(** [str.isalnum] on one character. *)
Definition isalnum (c : ascii) : bool :=
  let n := code c in
  ((48 <=? n) && (n <=? 57) || (65 <=? n) && (n <=? 90) ||
   (97 <=? n) && (n <=? 122) ||
   (n =? 170) || (n =? 178) || (n =? 179) || (n =? 181) ||
   (n =? 185) || (n =? 186) || (188 <=? n) && (n <=? 190) ||
   (192 <=? n) && (n <=? 214) || (216 <=? n) && (n <=? 246) ||
   (248 <=? n))%N.

Fixpoint is_prefix (p s : string) : bool :=
  match p, s with
  | EmptyString, _ => true
  | String a p', String b s' => if Ascii.eqb a b then is_prefix p' s' else false
  | String _ _, EmptyString => false
  end.

(** [p in s] for two strings. *)
Fixpoint contains (p s : string) : bool :=
  is_prefix p s ||
  match s with
  | EmptyString => false
  | String _ s' => contains p s'
  end.

(** [c in chars] for a character. *)
Fixpoint char_in (c : ascii) (chars : string) : bool :=
  match chars with
  | EmptyString => false
  | String d chars' => Ascii.eqb c d || char_in c chars'
  end.

Definition flush (cur : string) : list string :=
  match cur with
  | EmptyString => []
  | _ => [String.rev cur]
  end.

(** [cur] is the token being read, last character first. *)
Fixpoint split_go (cur : string) (s : string) : list string :=
  match s with
  | EmptyString => flush cur
  | String c s' =>
      if isspace c then flush cur ++ split_go EmptyString s'
      else split_go (String c cur) s'
  end.

(** [s.split()]: the maximal runs of non-whitespace characters. *)
Definition split (s : string) : list string := split_go EmptyString s.

Fixpoint filter (f : ascii -> bool) (s : string) : string :=
  match s with
  | EmptyString => EmptyString
  | String c s' => if f c then String c (filter f s') else filter f s'
  end.

Fixpoint take (n : nat) (s : string) : string :=
  match n, s with
  | S n', String c s' => String c (take n' s')
  | _, _ => EmptyString
  end.

Fixpoint drop (n : nat) (s : string) : string :=
  match n, s with
  | S n', String _ s' => drop n' s'
  | _, _ => s
  end.

(** [s[-n:]] for a positive [n]. *)
Definition last_chars (n : nat) (s : string) : string :=
  drop (String.length s - n) s.

Fixpoint drop_while (f : ascii -> bool) (s : string) : string :=
  match s with
  | String c s' => if f c then drop_while f s' else s
  | EmptyString => EmptyString
  end.

(** [s.strip()]. *)
Definition strip (s : string) : string :=
  String.rev (drop_while isspace (String.rev (drop_while isspace s))).

(** ["=" * n] and the like. *)
Fixpoint repeat (c : ascii) (n : nat) : string :=
  match n with
  | O => EmptyString
  | S n' => String c (repeat c n')
  end.

(** Reading in text mode turns ["\r\n"] and a lone ["\r"] into ["\n"]. *)
Fixpoint universal_newlines (s : string) : string :=
  match s with
  | EmptyString => EmptyString
  | String c s' =>
      if Ascii.eqb c "013" then
        String "010"
          match s' with
          | String d s'' =>
              if Ascii.eqb d "010" then universal_newlines s'' else universal_newlines s'
          | EmptyString => EmptyString
          end
      else String c (universal_newlines s')
  end.

(** [sep.join(parts)]. *)
Fixpoint join (sep : string) (parts : list string) : string :=
  match parts with
  | [] => EmptyString
  | [p] => p
  | p :: rest => p +:+ sep +:+ join sep rest
  end.

End PyStr.

(** ** The classifier *)

Definition test_patterns : list string :=
  ["test"; "junit"; "pytest"; "jest"; "mocha"; "rspec"].
Definition build_patterns : list string :=
  ["build"; "compile"; "make"; "gradle"; "maven"; "npm run build"].
Definition long_patterns : list string :=
  ["install"; "download"; "sync"; "clone"; "pull"; "push"].

(** [any(pattern in cmd_lower for pattern in patterns)] *)
Definition any_pattern_in (patterns : list string) (cmd_lower : string) : bool :=
  existsb (fun pattern => PyStr.contains pattern cmd_lower) patterns.

Definition classify_command (command : string) : string :=
  let cmd_lower := PyStr.lower command in
  if any_pattern_in test_patterns cmd_lower then "test"
  else if any_pattern_in build_patterns cmd_lower then "build"
  else if any_pattern_in long_patterns cmd_lower then "long"
  else if (5 <? length (PyStr.split command))%nat then "complex"
  else "quick".


(** ** Python values, exceptions and results *)

(** The values a JSON argument dictionary carries. *)
Inductive pyval :=
| VNone
| VBool (b : bool)
| VInt (n : Z)
| VStr (s : string).

(** Truth value of an object, as [if v], [a or b] and [not v] take it. *)
Definition truthy (v : pyval) : bool :=
  match v with
  | VNone => false
  | VBool b => b
  | VInt n => negb (n =? 0)
  | VStr s => negb (String.eqb s EmptyString)
  end.

(** [a or b] *)
Definition py_or (a b : pyval) : pyval := if truthy a then a else b.

(** [str(v)], which is also how an f-string renders [{v}]. *)
Definition py_str (v : pyval) : string :=
  match v with
  | VNone => "None"
  | VBool true => "True"
  | VBool false => "False"
  | VInt n => pretty n
  | VStr s => s
  end.

Definition is_digit (c : ascii) : bool :=
  let n := PyStr.code c in ((48 <=? n) && (n <=? 57))%N.

Definition digit_value (c : ascii) : Z := Z.of_N (PyStr.code c) - 48.

(** Digits with single underscores between them. *)
Fixpoint int_digits (acc : Z) (after_digit : bool) (s : string) : option Z :=
  match s with
  | EmptyString => if after_digit then Some acc else None
  | String c s' =>
      if is_digit c then int_digits (10 * acc + digit_value c) true s'
      else if Ascii.eqb c "_" && after_digit then int_digits acc false s'
      else None
  end.

(** The number of decimal digits in [s]. *)
Fixpoint count_digits (s : string) : nat :=
  match s with
  | EmptyString => 0
  | String c s' => ((if is_digit c then 1 else 0) + count_digits s')%nat
  end.

(** [sys.int_max_str_digits]: longer numerals are refused. *)
Definition int_max_str_digits : Z := 4300.

(** [int(s)] for a string: [None] stands for [ValueError]. *)
Definition py_int (s : string) : option Z :=
  let t := PyStr.strip s in
  if int_max_str_digits <? Z.of_nat (count_digits t) then None
  else
    match t with
    | String "-" s' => Z.opp <$> int_digits 0 false s'
    | String "+" s' => int_digits 0 false s'
    | s' => int_digits 0 false s'
    end.

Inductive exn_class :=
| KeyError | AttributeError | TypeError | ValueError | UnicodeDecodeError
| OverflowError
| OSError | FileNotFoundError | PermissionError | ProcessLookupError
| TimeoutError.

(** A raised exception: its class and [str(e)]. *)
Record exn := Exn { exn_cls : exn_class; exn_str : string }.

(** [isinstance(e, OSError)] *)
Definition is_OSError (c : exn_class) : bool :=
  match c with
  | OSError | FileNotFoundError | PermissionError | ProcessLookupError => true
  | _ => false
  end.

(** [isinstance(e, ValueError)] *)
Definition is_ValueError (c : exn_class) : bool :=
  match c with ValueError | UnicodeDecodeError => true | _ => false end.

Definition is_TimeoutError (c : exn_class) : bool :=
  match c with TimeoutError => true | _ => false end.

Record TextContent := TextContentOf { tc_type : string; tc_text : string }.

(** ** The world outside the server *)

(** How the bytes of a file read as text: all of them decode; or some byte
    does not, either beyond the first block a reader takes from the file
    (8192 bytes, enough for the 500 characters of [read(500)]) or within it.
    [reason] is the text of the [UnicodeDecodeError]. *)
Inductive decoding :=
| Decodes
| FailsLate (reason : string)
| FailsEarly (reason : string).

(** A file of the output directory, whose entries are regular files.
    [f_data] is its text; when not all of its bytes decode, the text of
    those before the first that does not. *)
Record file := File {
  f_data : string;
  f_mtime : Z;
  f_readable : bool;
  f_decoding : decoding
}.

(** What a started command line does, as its parent can observe it.
    [b_quit] is the number of seconds after which the started shell itself
    has exited ([None]: never).  [b_eof] is the number of seconds after
    which the captured pipe (both pipes, when standard output and standard
    error are captured apart) is at end of file: every process that holds
    its writing end, the shell and whatever it has started, has closed it.
    [b_released t] is, for a shell that is killed [t] seconds after its
    start, the number of seconds after the start at which the pipe is closed
    on all sides: at once when the shell held it alone, later or never when
    a process it started still holds it.  [b_stdout] is the decoded text
    left on the captured pipe; [b_writes] lists the files of the output
    directory that the redirections of the command line create or overwrite,
    with their text as a later reader finds it (a file whose bytes do not
    decode is not written by these processes but found in the world). *)
Record behaviour := Behaviour {
  b_quit : option Z;
  b_eof : option Z;
  b_released : Z -> option Z;
  b_stdout : string;
  b_returncode : Z;
  b_writes : list (string * string)
}.

(** Seconds after which [communicate()] is through: it reads the pipe to its
    end of file and then waits for the exit of the process. *)
Definition b_exit (b : behaviour) : option Z :=
  match b_quit b, b_eof b with
  | Some d, Some e => Some (Z.max d e)
  | _, _ => None
  end.

(** Seconds into the run at which [wait()] returns when it is called right
    after the shell was killed [t] seconds into the run.  A shell that had
    exited before has its exit status recorded, and [wait()] returns at
    once.  Otherwise the caller is woken when the connection of the
    transport is lost, which needs the captured pipe closed on all sides. *)
Definition wait_returns (b : behaviour) (t : Z) : option Z :=
  match b_quit b with
  | Some d => if d <? t then Some t else Z.max t <$> b_released b t
  | None => Z.max t <$> b_released b t
  end.

Inductive spawn_result :=
| SpawnFails (e : exn)
| Spawned (pid : Z) (b : behaviour).

(** Answer of the kernel to [kill(pid, 0)]. *)
Inductive probe := Alive | NoSuchProcess | NotPermitted.

Inductive event :=
| EvOpenW (name : string)
| EvOpenA (name : string)
| EvSpawn (pid : Z) (cmdline : string)
| EvKill (pid : Z)
| EvWait (pid : Z)
| EvSleep (seconds : Z).

Record World := mkWorld {
  w_now : Z;                                   (* clock, in seconds *)
  w_ctime : Z -> string;                        (* rendering of [time.ctime] *)
  w_getcwd : option string;                     (* [None]: the directory is gone *)
  w_output_dir : string;                        (* [str(self.output_dir)] *)
  w_files : list (string * file);               (* the output directory *)
  w_writable : bool;                            (* may files be opened for writing *)
  w_shell : string -> pyval -> spawn_result;    (* the shell, per command line and cwd *)
  w_kill0 : Z -> probe;
  w_children : list Z;                          (* child processes not yet reaped *)
  w_events : list event                         (* oldest first *)
}.

Definition set_now (t : Z) (w : World) : World :=
  mkWorld t (w_ctime w) (w_getcwd w) (w_output_dir w) (w_files w) (w_writable w)
          (w_shell w) (w_kill0 w) (w_children w) (w_events w).
Definition set_files (fs : list (string * file)) (w : World) : World :=
  mkWorld (w_now w) (w_ctime w) (w_getcwd w) (w_output_dir w) fs (w_writable w)
          (w_shell w) (w_kill0 w) (w_children w) (w_events w).
Definition set_children (cs : list Z) (w : World) : World :=
  mkWorld (w_now w) (w_ctime w) (w_getcwd w) (w_output_dir w) (w_files w) (w_writable w)
          (w_shell w) (w_kill0 w) cs (w_events w).
Definition log_event (ev : event) (w : World) : World :=
  mkWorld (w_now w) (w_ctime w) (w_getcwd w) (w_output_dir w) (w_files w) (w_writable w)
          (w_shell w) (w_kill0 w) (w_children w) (w_events w ++ [ev]).

(** *** The output directory *)

Fixpoint lookup_file (name : string) (fs : list (string * file)) : option file :=
  match fs with
  | [] => None
  | (n, f) :: fs' => if String.eqb n name then Some f else lookup_file name fs'
  end.

Fixpoint store_file (name : string) (f : file) (fs : list (string * file))
  : list (string * file) :=
  match fs with
  | [] => [(name, f)]
  | (n, g) :: fs' =>
      if String.eqb n name then (name, f) :: fs' else (n, g) :: store_file name f fs'
  end.

(** The files a started process writes. *)
Definition apply_writes (now : Z) (ws : list (string * string))
  (fs : list (string * file)) : list (string * file) :=
  fold_left (fun fs nw => store_file (fst nw) (File (snd nw) now true Decodes) fs) ws fs.

(** ** The monad of the methods *)

Inductive outcome (A : Type) :=
| Ret (a : A)
| Raise (e : exn)
| Hang.
Arguments Ret {A} a.
Arguments Raise {A} e.
Arguments Hang {A}.

Definition M (A : Type) : Type := World -> outcome A * World.

Definition ret {A} (a : A) : M A := fun w => (Ret a, w).
Definition raise {A} (e : exn) : M A := fun w => (Raise e, w).
Definition hang {A} : M A := fun w => (Hang, w).

Definition bind {A B} (m : M A) (k : A -> M B) : M B :=
  fun w =>
    match m w with
    | (Ret a, w') => k a w'
    | (Raise e, w') => (Raise e, w')
    | (Hang, w') => (Hang, w')
    end.

Notation "x <- c1 ;; c2" := (bind c1 (fun x => c2))
  (at level 100, c1 at next level, right associativity).
Notation "c1 ;; c2" := (bind c1 (fun _ => c2))
  (at level 100, right associativity).

(** [try: body  except <classes matching catches> as e: handler e] *)
Definition try_except {A} (catches : exn_class -> bool)
  (body : M A) (handler : exn -> M A) : M A :=
  fun w =>
    match body w with
    | (Raise e, w') => if catches (exn_cls e) then handler e w' else (Raise e, w')
    | r => r
    end.

(** [except Exception] *)
Definition any_exception (c : exn_class) : bool := true.

Definition get {A} (proj : World -> A) : M A := fun w => (Ret (proj w), w).
Definition modify (f : World -> World) : M unit := fun w => (Ret tt, f w).

(** [for x in xs: body], with the variables the body updates as [s]. *)
Fixpoint for_in {A S} (xs : list A) (body : S -> A -> M S) (s : S) : M S :=
  match xs with
  | [] => ret s
  | x :: xs' => s' <- body s x ;; for_in xs' body s'
  end.

(** *** Primitives: clock, paths and files *)

(** ["\n"] *)
Definition nl : string := String (ascii_of_nat 10) EmptyString.

(** [int(time.time())] *)
Definition time_time : M Z := get w_now.

(** [time.ctime()] *)
Definition time_ctime : M string := get (fun w => w_ctime w (w_now w)).

(** [os.getcwd()] *)
Definition os_getcwd : M string :=
  fun w =>
    match w_getcwd w with
    | Some d => (Ret d, w)
    | None => (Raise (Exn FileNotFoundError "[Errno 2] No such file or directory"), w)
    end.

(** [str(self.output_dir / name)] *)
Definition path_str (name : string) : M string :=
  get (fun w => w_output_dir w +:+ "/" +:+ name).

(** [(self.output_dir / name).exists()] *)
Definition path_exists (name : string) : M bool :=
  get (fun w => match lookup_file name (w_files w) with Some _ => true | None => false end).

Definition permission_denied (w : World) (name : string) : exn :=
  Exn PermissionError
      ("[Errno 13] Permission denied: '" +:+ w_output_dir w +:+ "/" +:+ name +:+ "'").

Definition no_such_file (w : World) (name : string) : exn :=
  Exn FileNotFoundError
      ("[Errno 2] No such file or directory: '" +:+ w_output_dir w +:+ "/" +:+ name +:+ "'").

Definition readable_flag (name : string) (fs : list (string * file)) : bool :=
  match lookup_file name fs with Some f => f_readable f | None => true end.

Definition decoding_flag (name : string) (fs : list (string * file)) : decoding :=
  match lookup_file name fs with Some f => f_decoding f | None => Decodes end.

(** [path.open("w")]: creates the file or empties it. *)
Definition open_w (name : string) : M unit :=
  fun w =>
    if w_writable w then
      let f := File EmptyString (w_now w) (readable_flag name (w_files w)) Decodes in
      (Ret tt, log_event (EvOpenW name) (set_files (store_file name f (w_files w)) w))
    else (Raise (permission_denied w name), w).

(** [path.open("a")]: creates the file when it is missing, keeps it otherwise. *)
Definition open_a (name : string) : M unit :=
  fun w =>
    if w_writable w then
      match lookup_file name (w_files w) with
      | Some _ => (Ret tt, log_event (EvOpenA name) w)
      | None =>
          (Ret tt, log_event (EvOpenA name)
                     (set_files
                        (store_file name (File EmptyString (w_now w) true Decodes)
                           (w_files w)) w))
      end
    else (Raise (permission_denied w name), w).

(** [f.write(text)] on a file opened by [open_w] or [open_a]. *)
Definition f_write (name text : string) : M unit :=
  fun w =>
    let old := match lookup_file name (w_files w) with Some f => f_data f | None => EmptyString end in
    let f := File (old +:+ text) (w_now w) (readable_flag name (w_files w))
                  (decoding_flag name (w_files w)) in
    (Ret tt, set_files (store_file name f (w_files w)) w).

(** The text a reader of the file gets. *)
Definition file_text (f : file) : string := PyStr.universal_newlines (f_data f).

(** [path.open("r")]; the handle stands for the file as it is then. *)
Definition open_r (name : string) : M file :=
  fun w =>
    match lookup_file name (w_files w) with
    | None => (Raise (no_such_file w name), w)
    | Some f => if f_readable f then (Ret f, w)
                else (Raise (permission_denied w name), w)
    end.

(** [f.read()]: the whole file is decoded. *)
Definition f_read (f : file) : M string :=
  match f_decoding f with
  | Decodes => ret (file_text f)
  | FailsLate reason | FailsEarly reason => raise (Exn UnicodeDecodeError reason)
  end.

(** [f.read(n)] for an [n] that the first block of the file covers: only
    that block is decoded. *)
Definition f_read_n (n : nat) (f : file) : M string :=
  match f_decoding f with
  | Decodes | FailsLate _ => ret (PyStr.take n (file_text f))
  | FailsEarly reason => raise (Exn UnicodeDecodeError reason)
  end.

Definition is_suffix (p s : string) : bool :=
  PyStr.is_prefix (String.rev p) (String.rev s).

(** Does [name] match the pattern [pre*suf]? *)
Definition glob_match (pre suf name : string) : bool :=
  PyStr.is_prefix pre name && is_suffix suf name &&
  (String.length pre + String.length suf <=? String.length name)%nat.

(** [self.output_dir.glob(pre*suf)], in directory order. *)
Definition glob (pre suf : string) : M (list (string * file)) :=
  get (fun w => List.filter (fun nf => glob_match pre suf (fst nf)) (w_files w)).

Fixpoint insert_desc (x : string * file) (l : list (string * file))
  : list (string * file) :=
  match l with
  | [] => [x]
  | y :: l' =>
      if f_mtime (snd y) <=? f_mtime (snd x) then x :: l else y :: insert_desc x l'
  end.

(** [sorted(paths, key=os.path.getmtime, reverse=True)]: newest first, files
    of equal age in their original order. *)
Definition sorted_by_mtime_desc (l : list (string * file)) : list (string * file) :=
  foldr insert_desc [] l.

(** The part of [name] before its last dot, when there is one. *)
Fixpoint before_last_dot (name : string) : option string :=
  match name with
  | EmptyString => None
  | String c rest =>
      match before_last_dot rest with
      | Some t => Some (String c t)
      | None => if Ascii.eqb c "." then Some EmptyString else None
      end
  end.

(** [path.stem]: the name without its last suffix; a dot that starts or ends
    the name does not begin a suffix. *)
Definition path_stem (name : string) : string :=
  match before_last_dot name with
  | Some EmptyString => name
  | Some t => if (S (String.length t) =? String.length name)%nat then name else t
  | None => name
  end.

(** *** Primitives: processes *)

(** A started process: its id, what it does, and when it was started. *)
Record process := Process { p_pid : Z; p_behaviour : behaviour; p_started : Z }.

Definition reap (pid : Z) (w : World) : World :=
  set_children (List.filter (fun p => negb (p =? pid)) (w_children w)) w.

(** [asyncio.create_subprocess_shell(cmd, ..., cwd=cwd)] *)
Definition create_subprocess_shell (cmd : string) (cwd : pyval) : M process :=
  fun w =>
    match w_shell w cmd cwd with
    | SpawnFails e => (Raise e, w)
    | Spawned pid b =>
        (Ret (Process pid b (w_now w)),
         log_event (EvSpawn pid cmd)
           (set_children (w_children w ++ [pid])
              (set_files (apply_writes (w_now w) (b_writes b) (w_files w)) w)))
    end.

(** [process.communicate()]: returns the captured text once the pipe is at
    end of file and the process has exited and been reaped. *)
Definition communicate (p : process) : M string :=
  fun w =>
    match b_exit (p_behaviour p) with
    | Some d => (Ret (b_stdout (p_behaviour p)),
                 reap (p_pid p) (set_now (w_now w + Z.max 0 d) w))
    | None => (Hang, w)
    end.

(** [process.returncode] after [communicate] *)
Definition returncode (p : process) : Z := b_returncode (p_behaviour p).

(** Is the integer too large for a float?  The deadline is added to the
    clock of the event loop, a float. *)
Definition float_overflow (t : Z) : bool := 2 ^ 1024 - 2 ^ 970 <=? t.

(** [asyncio.wait_for(process.communicate(), timeout=timeout)]: a deadline
    that is not positive expires at once; a positive one is scheduled on the
    clock of the event loop and races with [communicate()]. *)
Definition wait_for_communicate (p : process) (timeout : pyval) : M string :=
  let bounded (t : Z) : M string :=
    fun w =>
      match b_exit (p_behaviour p) with
      | Some d =>
          if (0 <? t) && (d <? t) then communicate p w
          else (Raise (Exn TimeoutError EmptyString), set_now (w_now w + Z.max 0 t) w)
      | None => (Raise (Exn TimeoutError EmptyString), set_now (w_now w + Z.max 0 t) w)
      end in
  match timeout with
  | VNone => communicate p
  | VInt t =>
      if float_overflow t
      then raise (Exn OverflowError "int too large to convert to float")
      else bounded t
  | VBool b => bounded (if b then 1 else 0)
  | VStr _ =>
      raise (Exn TypeError "'<=' not supported between instances of 'str' and 'int'")
  end.

(** [process.kill()]: the signal goes to the started shell alone; it is not
    sent when the shell has exited already. *)
Definition process_kill (p : process) : M unit := modify (log_event (EvKill (p_pid p))).

(** [process.wait()] right after [process.kill()]: see [wait_returns]. *)
Definition process_wait (p : process) : M unit :=
  fun w =>
    let w1 := log_event (EvWait (p_pid p)) w in
    match wait_returns (p_behaviour p) (w_now w - p_started p) with
    | Some r => (Ret tt, reap (p_pid p) (set_now (p_started p + r) w1))
    | None => (Hang, w1)
    end.

(** [asyncio.sleep(seconds)] *)
Definition asyncio_sleep (seconds : Z) : M unit :=
  modify (fun w => log_event (EvSleep seconds) (set_now (w_now w + seconds) w)).

(** [int(s)] *)
Definition int_of_str (s : string) : M Z :=
  match py_int s with
  | Some n => ret n
  | None => raise (Exn ValueError ("invalid literal for int() with base 10: '" +:+ s +:+ "'"))
  end.

(** The complaint about a process id that does not fit the C type. *)
Definition pid_overflow (pid : Z) : string :=
  if (pid <? - 2 ^ 63) || (2 ^ 63 - 1 <? pid)
  then "Python int too large to convert to C long"
  else if pid <? 0 then "signed integer is less than minimum"
  else "signed integer is greater than maximum".

(** [os.kill(pid, 0)]: the process id must fit the C type before the kernel
    is asked. *)
Definition os_kill0 (pid : Z) : M unit :=
  fun w =>
    if (pid <? -2147483648) || (2147483647 <? pid)
    then (Raise (Exn OverflowError (pid_overflow pid)), w)
    else match w_kill0 w pid with
         | Alive => (Ret tt, w)
         | NoSuchProcess => (Raise (Exn ProcessLookupError "[Errno 3] No such process"), w)
         | NotPermitted => (Raise (Exn PermissionError "[Errno 1] Operation not permitted"), w)
         end.

(** ** The server *)

(** [self.safe_timeout] *)
Definition safe_timeout : Z := 8.

(** [[TextContent(type="text", text=text)]] *)
Definition text_result (text : string) : list TextContent := [TextContentOf "text" text].

(** ["=" * 40] and ["-" * 40] *)
Definition rule_eq : string := PyStr.repeat "=" 40.
Definition rule_dash : string := PyStr.repeat "-" 40.

(** The name of the log of a bounded execution started at [timestamp]. *)
Definition safe_log_name (timestamp : Z) : string :=
  "safe_" +:+ pretty timestamp +:+ ".log".

Definition execute_with_timeout (command : string) (cwd timeout : pyval)
  : M (list TextContent) :=
  try_except any_exception
    ((* Create output file *)
     timestamp <- time_time ;;
     let output_file := safe_log_name timestamp in
     open_w output_file ;;
     f_write output_file ("=== AI-Safe Execution ===" +:+ nl) ;;
     f_write output_file ("Command: " +:+ command +:+ nl) ;;
     f_write output_file ("CWD: " +:+ py_str cwd +:+ nl) ;;
     f_write output_file ("Timeout: " +:+ py_str timeout +:+ "s" +:+ nl) ;;
     started <- time_ctime ;;
     f_write output_file ("Started: " +:+ started +:+ nl) ;;
     f_write output_file (rule_eq +:+ nl) ;;
     (* Execute with timeout *)
     process <- create_subprocess_shell command cwd ;;
     try_except is_TimeoutError
       (output <- wait_for_communicate process timeout ;;
        (* Save to file *)
        open_a output_file ;;
        f_write output_file output ;;
        f_write output_file (nl +:+ rule_eq +:+ nl) ;;
        f_write output_file ("Exit Code: " +:+ pretty (returncode process) +:+ nl) ;;
        completed <- time_ctime ;;
        f_write output_file ("Completed: " +:+ completed +:+ nl) ;;
        (* Return formatted result *)
        let result := "✅ Command completed successfully" +:+ nl in
        let result := result +:+ "Exit Code: " +:+ pretty (returncode process) +:+ nl in
        let result := result +:+ "Output:" +:+ nl +:+ PyStr.take 2000 output in
        log_path <- path_str output_file ;;
        let result :=
          if (2000 <? String.length output)%nat
          then result +:+ nl +:+ "... (truncated, full output in " +:+ log_path +:+ ")"
          else result in
        ret (text_result result))
       (fun _ =>
        process_kill process ;;
        process_wait process ;;
        open_a output_file ;;
        f_write output_file (nl +:+ "⏰ TIMEOUT: Command terminated" +:+ nl) ;;
        f_write output_file ("Timeout: " +:+ py_str timeout +:+ "s" +:+ nl) ;;
        terminated <- time_ctime ;;
        f_write output_file ("Terminated: " +:+ terminated +:+ nl) ;;
        log_path <- path_str output_file ;;
        ret (text_result
               ("⏰ Command timed out after " +:+ py_str timeout +:+ "s and was terminated" +:+ nl +:+
                "This prevents AI from hanging on slow commands." +:+ nl +:+
                "For long-running commands, use force_background=true" +:+ nl +:+
                "Log: " +:+ log_path))))
    (fun e => ret (text_result ("❌ Error executing command: " +:+ exn_str e))).

(** [''.join(c for c in command[:20] if c.isalnum() or c in "_-")] *)
Definition safe_name (command : string) : string :=
  PyStr.filter (fun c => PyStr.isalnum c || PyStr.char_in c "_-") (PyStr.take 20 command).

Definition bg_log_name (timestamp : Z) (command : string) : string :=
  "bg_" +:+ pretty timestamp +:+ "_" +:+ safe_name command +:+ ".log".
Definition bg_pid_name (timestamp : Z) (command : string) : string :=
  "bg_" +:+ pretty timestamp +:+ "_" +:+ safe_name command +:+ ".pid".

Definition execute_background (command : string) (cwd : pyval) : M (list TextContent) :=
  timestamp <- time_time ;;
  let output_file := bg_log_name timestamp command in
  let pid_file := bg_pid_name timestamp command in
  log_path <- path_str output_file ;;
  try_except any_exception
    ((* Start background process *)
     process <- create_subprocess_shell
                  (command +:+ " > " +:+ log_path +:+ " 2>&1 & echo $!") cwd ;;
     stdout <- communicate process ;;
     let pid := PyStr.strip stdout in
     (* Save PID *)
     open_w pid_file ;;
     f_write pid_file pid ;;
     (* Initial status check *)
     asyncio_sleep 1 ;;
     let result := "✅ Command started in background" +:+ nl in
     let result := result +:+ "PID: " +:+ pid +:+ nl in
     let result := result +:+ "Output file: " +:+ log_path +:+ nl in
     let result := result +:+ "Use check_command_status to monitor progress" +:+ nl in
     (* Try to show initial output *)
     present <- path_exists output_file ;;
     result <- (if present then
                  f <- open_r output_file ;;
                  initial <- f_read_n 500 f ;;
                  ret (if negb (String.eqb (PyStr.strip initial) EmptyString)
                       then result +:+ nl +:+ "=== Initial Output ===" +:+ nl +:+ initial
                       else result)
                else ret result) ;;
     ret (text_result result))
    (fun e => ret (text_result ("❌ Error starting background command: " +:+ exn_str e))).

(** [x in xs] for strings *)
Definition str_in (x : string) (xs : list string) : bool := existsb (String.eqb x) xs.

Definition execute_safe_command (args : gmap string pyval) : M (list TextContent) :=
  match args !! "command" with
  | None => raise (Exn KeyError "'command'")
  | Some command_value =>
      (* the default of [args.get("cwd", os.getcwd())] is evaluated first *)
      default_cwd <- os_getcwd ;;
      let cwd := default (VStr default_cwd) (args !! "cwd") in
      let force_background := default (VBool false) (args !! "force_background") in
      let custom_timeout := default VNone (args !! "timeout") in
      match command_value with
      | VStr command =>
          (* Classify command *)
          let cmd_type := classify_command command in
          (* Determine execution strategy *)
          if truthy force_background || str_in cmd_type ["test"; "build"; "long"]
          then execute_background command cwd
          else
            let timeout := py_or custom_timeout (VInt safe_timeout) in
            execute_with_timeout command cwd timeout
      | _ => raise (Exn AttributeError "object has no attribute 'lower'")
      end
  end.

(** The status lines of one background command: the body of the [if
    pid_file.exists()] statement of [check_status]. *)
Definition probe_status (pid_file : string) : M string :=
  present <- path_exists pid_file ;;
  if present then
    f <- open_r pid_file ;;
    text <- f_read f ;;
    let pid := PyStr.strip text in
    (* Check if process is still running *)
    try_except (fun c => is_OSError c || is_ValueError c)
      (n <- int_of_str pid ;;
       os_kill0 n ;;
       ret "🔄 Running")
      (fun _ => ret "✅ Completed")
  else ret "❓ Unknown".

(** The body of the loop of [check_status].  The unused [timestamp] is left
    out: [stem.split('_')[1]] exists for every name that starts with [bg_];
    [stem.replace('bg_', 'bg_')] is [stem]. *)
Definition check_status_body (show_output : pyval) (result : string) (log_file : string)
  : M string :=
  let stem := path_stem log_file in
  let pid_file := stem +:+ ".pid" in
  status <- probe_status pid_file ;;
  log_path <- path_str log_file ;;
  let result := result +:+ nl +:+ "Command: " +:+ stem +:+ nl in
  let result := result +:+ "Status: " +:+ status +:+ nl in
  let result := result +:+ "Log: " +:+ log_path +:+ nl in
  present <- path_exists log_file ;;
  result <- (if truthy show_output && present then
               f <- open_r log_file ;;
               text <- f_read f ;;
               let recent_output := PyStr.last_chars 1000 text in
               ret (if negb (String.eqb (PyStr.strip recent_output) EmptyString)
                    then result +:+ "Recent output:" +:+ nl +:+ recent_output +:+ nl
                    else result)
             else ret result) ;;
  ret (result +:+ rule_dash +:+ nl).

Definition check_status (args : gmap string pyval) : M (list TextContent) :=
  let show_output := default (VBool true) (args !! "show_output") in
  (* Find recent background commands *)
  found <- glob "bg_" ".log" ;;
  let bg_files := fst <$> sorted_by_mtime_desc found in
  match bg_files with
  | [] => ret (text_result "No background commands found")
  | _ =>
      let result := "=== Background Command Status ===" +:+ nl in
      result <- for_in (take 5 bg_files) (check_status_body show_output) result ;;
      ret (text_result result)
  end.

(** [str.splitlines] boundaries below U+0100. *)
Definition is_linebreak (c : ascii) : bool :=
  let n := PyStr.code c in
  ((10 <=? n) && (n <=? 13) || (28 <=? n) && (n <=? 30) || (n =? 133))%N.

Fixpoint splitlines_go (cur : string) (s : string) : list string :=
  match s with
  | EmptyString => PyStr.flush cur
  | String c s' =>
      if is_linebreak c then
        String.rev cur ::
          match s' with
          | String d s'' =>
              if Ascii.eqb c "013" && Ascii.eqb d "010"
              then splitlines_go EmptyString s''
              else splitlines_go EmptyString s'
          | EmptyString => splitlines_go EmptyString s'
          end
      else splitlines_go (String c cur) s'
  end.

(** [s.splitlines()] *)
Definition splitlines (s : string) : list string := splitlines_go EmptyString s.

(** [l[start:]] *)
Definition slice_from {A} (start : Z) (l : list A) : list A :=
  let len := Z.of_nat (length l) in
  let start := if start <? 0 then Z.max 0 (start + len) else Z.min start len in
  drop (Z.to_nat start) l.

(** The integer an object stands for in a comparison with an [int]. *)
Definition int_operand (v : pyval) : M Z :=
  match v with
  | VInt n => ret n
  | VBool b => ret (if b then 1 else 0)
  | VNone => raise (Exn TypeError "'>' not supported between instances of 'int' and 'NoneType'")
  | VStr _ => raise (Exn TypeError "'>' not supported between instances of 'int' and 'str'")
  end.

(** The body of the loop of [get_context]. *)
Definition get_context_body (lines : pyval) (context : string) (log_file : string)
  : M string :=
  present <- path_exists log_file ;;
  if present then
    f <- open_r log_file ;;
    content <- f_read f ;;
    let context := context +:+ nl +:+ "📄 " +:+ log_file +:+ nl in
    let context := context +:+ rule_dash +:+ nl in
    (* Get last N lines *)
    let content_lines := splitlines content in
    n <- int_operand lines ;;
    let context :=
      if Z.of_nat (length content_lines) >? n then
        let context := context +:+ "... (showing last " +:+ py_str lines +:+ " lines)" +:+ nl in
        context +:+ PyStr.join nl (slice_from (- n) content_lines)
      else context +:+ content in
    ret (context +:+ nl +:+ rule_eq +:+ nl)
  else ret context.

Definition get_context (args : gmap string pyval) : M (list TextContent) :=
  let lines := default (VInt 50) (args !! "lines") in
  (* Collect recent outputs *)
  found <- glob EmptyString ".log" ;;
  let all_files := fst <$> sorted_by_mtime_desc found in
  let context := "=== Recent Terminal Activity ===" +:+ nl in
  context <- for_in (take 3 all_files) (get_context_body lines) context ;;
  ret (text_result context).

Definition handle_call_tool (name : string) (arguments : gmap string pyval)
  : M (list TextContent) :=
  if String.eqb name "run_command_safe" then execute_safe_command arguments
  else if String.eqb name "check_command_status" then check_status arguments
  else if String.eqb name "get_terminal_context" then get_context arguments
  else raise (Exn ValueError ("Unknown tool: " +:+ name)).


(** ** Reference definitions, after the specification

    These follow the words of the specification, not the code; the properties
    below compare the two. *)

(** The keyword [kw] occurs somewhere in [text]. *)
Definition occurs_in (kw text : string) : Prop :=
  exists before after, text = before +:+ kw +:+ after.

(** Case-insensitive substring matching of a keyword family against the whole
    command line. *)
Definition mentions (family : list string) (command : string) : Prop :=
  exists kw, kw ∈ family /\ occurs_in kw (PyStr.lower command).

(** The whitespace-delimited tokens are counted at their first character: a
    character that is not white space and follows white space or starts the
    text. *)
Fixpoint token_count_from (fresh : bool) (s : string) : nat :=
  match s with
  | EmptyString => 0
  | String c s' =>
      ((if fresh && negb (PyStr.isspace c) then 1 else 0) +
       token_count_from (PyStr.isspace c) s')%nat
  end.
Definition token_count (s : string) : nat := token_count_from true s.

(** The classification policy of the specification: first match wins. *)
Inductive classify_ref (command : string) : string -> Prop :=
| ref_test :
    mentions test_patterns command ->
    classify_ref command "test"
| ref_build :
    ~ mentions test_patterns command ->
    mentions build_patterns command ->
    classify_ref command "build"
| ref_long :
    ~ mentions test_patterns command ->
    ~ mentions build_patterns command ->
    mentions long_patterns command ->
    classify_ref command "long"
| ref_complex :
    ~ mentions test_patterns command ->
    ~ mentions build_patterns command ->
    ~ mentions long_patterns command ->
    (5 < token_count command)%nat ->
    classify_ref command "complex"
| ref_quick :
    ~ mentions test_patterns command ->
    ~ mentions build_patterns command ->
    ~ mentions long_patterns command ->
    (token_count command <= 5)%nat ->
    classify_ref command "quick".

(** *** The reports and log sections of a bounded execution *)

Definition safe_header (command : string) (cwd timeout : pyval) (started : string)
  : string :=
  "=== AI-Safe Execution ===" +:+ nl +:+
  "Command: " +:+ command +:+ nl +:+
  "CWD: " +:+ py_str cwd +:+ nl +:+
  "Timeout: " +:+ py_str timeout +:+ "s" +:+ nl +:+
  "Started: " +:+ started +:+ nl +:+
  rule_eq +:+ nl.

(** The final summary: exit code and completion time. *)
Definition completion_summary (exit_code : Z) (completed : string) : string :=
  nl +:+ rule_eq +:+ nl +:+
  "Exit Code: " +:+ pretty exit_code +:+ nl +:+
  "Completed: " +:+ completed +:+ nl.

Definition timeout_marker (timeout : pyval) (terminated : string) : string :=
  nl +:+ "⏰ TIMEOUT: Command terminated" +:+ nl +:+
  "Timeout: " +:+ py_str timeout +:+ "s" +:+ nl +:+
  "Terminated: " +:+ terminated +:+ nl.

(** Success: the exit code, the first 2000 characters of the output and, when
    the output is longer, a pointer to the full log. *)
Definition success_text (exit_code : Z) (output log_path : string) : string :=
  "✅ Command completed successfully" +:+ nl +:+
  "Exit Code: " +:+ pretty exit_code +:+ nl +:+
  "Output:" +:+ nl +:+ PyStr.take 2000 output +:+
  (if (2000 <? String.length output)%nat
   then nl +:+ "... (truncated, full output in " +:+ log_path +:+ ")"
   else EmptyString).

Definition timeout_text (timeout : pyval) (log_path : string) : string :=
  "⏰ Command timed out after " +:+ py_str timeout +:+ "s and was terminated" +:+ nl +:+
  "This prevents AI from hanging on slow commands." +:+ nl +:+
  "For long-running commands, use force_background=true" +:+ nl +:+
  "Log: " +:+ log_path.

Definition error_text (e : exn) : string := "❌ Error executing command: " +:+ exn_str e.

(** The three kinds of report of a bounded execution, told apart by how the
    text starts. *)
Definition is_success_report (text : string) : bool :=
  PyStr.is_prefix "✅ Command completed successfully" text.
Definition is_timeout_report (text : string) : bool :=
  PyStr.is_prefix "⏰ Command timed out" text.
Definition is_error_report (text : string) : bool :=
  PyStr.is_prefix "❌ Error executing command" text.

(** Is [communicate()] through before a deadline of [t] seconds, one that
    the clock of the event loop can hold? *)
Definition exits_in_time (t : Z) (b : behaviour) : bool :=
  match b_exit b with
  | Some d => (0 <? t) && (d <? t) && negb (float_overflow t)
  | None => false
  end.

(** Does the deadline of [t] seconds come first? *)
Definition deadline_first (t : Z) (b : behaviour) : bool :=
  negb (float_overflow t) &&
  match b_exit b with
  | Some d => negb ((0 <? t) && (d <? t))
  | None => true
  end.

(** Seconds a process whose [communicate()] is through after [d] seconds
    keeps its caller waiting. *)
Definition run_time (b : behaviour) : Z :=
  match b_exit b with Some d => Z.max 0 d | None => 0 end.

(** *** Queries over the run log store *)

(** A computation that only reads the world. *)
Definition read_only {A} (m : M A) : Prop := forall w, snd (m w) = w.

(** [x] was modified no earlier than [y]. *)
Definition newer_or_same (x y : string * file) : Prop :=
  f_mtime (snd y) <= f_mtime (snd x).

(** The log files [check_status] reports on, newest first. *)
Definition listed_background_logs (w : World) : list (string * file) :=
  take 5 (sorted_by_mtime_desc
            (List.filter (fun nf => glob_match "bg_" ".log" (fst nf)) (w_files w))).

Inductive liveness := Running | Completed | Unknown.

Definition liveness_text (l : liveness) : string :=
  match l with
  | Running => "🔄 Running"
  | Completed => "✅ Completed"
  | Unknown => "❓ Unknown"
  end.

(** The liveness of a background invocation, from its marker file and the
    answer of the kernel. *)
Definition liveness_of (w : World) (pid_file : string) : liveness :=
  match lookup_file pid_file (w_files w) with
  | None => Unknown
  | Some f =>
      match py_int (PyStr.strip (file_text f)) with
      | None => Completed
      | Some pid =>
          match w_kill0 w pid with
          | Alive => Running
          | NoSuchProcess | NotPermitted => Completed
          end
      end
  end.

(** The marker file, when there is one, can be read and records a number
    that fits a C [int]. *)
Definition marker_ok (w : World) (pid_file : string) : Prop :=
  match lookup_file pid_file (w_files w) with
  | None => True
  | Some f =>
      f_readable f = true /\ f_decoding f = Decodes /\
      match py_int (PyStr.strip (file_text f)) with
      | Some pid => -2147483648 <= pid <= 2147483647
      | None => True
      end
  end.

(** The file, when there is one, can be read: its permissions allow it and
    its bytes decode. *)
Definition file_readable (w : World) (name : string) : Prop :=
  match lookup_file name (w_files w) with
  | Some f => f_readable f = true /\ f_decoding f = Decodes
  | None => True
  end.

Definition recent_output_part (show_output : pyval) (w : World) (log_file : string)
  : string :=
  match lookup_file log_file (w_files w) with
  | Some f =>
      let recent := PyStr.last_chars 1000 (file_text f) in
      if truthy show_output && negb (String.eqb (PyStr.strip recent) EmptyString)
      then "Recent output:" +:+ nl +:+ recent +:+ nl
      else EmptyString
  | None => EmptyString
  end.

(** What [check_status] reports on one background log. *)
Definition status_block (show_output : pyval) (w : World) (log_file : string) : string :=
  let stem := path_stem log_file in
  nl +:+ "Command: " +:+ stem +:+ nl +:+
  "Status: " +:+ liveness_text (liveness_of w (stem +:+ ".pid")) +:+ nl +:+
  "Log: " +:+ w_output_dir w +:+ "/" +:+ log_file +:+ nl +:+
  recent_output_part show_output w log_file +:+
  rule_dash +:+ nl.

Definition concat_blocks {A} (block : A -> string) (xs : list A) : string :=
  foldr (fun x rest => block x +:+ rest) EmptyString xs.

(** ** A small world to run the server in *)

Definition demo_ctime (t : Z) : string := "at " +:+ pretty t.

Definition demo_dir : string := "/tmp/ai-terminal-outputs".

(** A command that is over after [d] seconds, pipe and all, and whose
    shell, when killed, holds the pipe alone. *)
Definition over_after (d : Z) (stdout : string) (code : Z)
  (writes : list (string * string)) : behaviour :=
  Behaviour (Some d) (Some d) (fun t => Some t) stdout code writes.

(** A [/bin/sh] that runs every command in a child of its own, as [dash]
    does.  Nothing can be started in a directory that does not exist; in
    any other directory the shell starts, whatever the command is.
    [echo hello] prints and exits at once.  [sleep 10] exits after ten
    seconds; when the shell is killed before, the [sleep] it started keeps
    the pipe until then.  [sleep infinity] never exits and, its shell
    killed, never lets go of the pipe.  [sleep 30 &] lets the shell exit at
    once while the detached [sleep] holds the pipe for thirty seconds.
    [printf %03000d 0] prints 3000 zeros.  For [no-such-command] the shell
    complains and exits with 127, as for any command it does not know.  A
    command line that redirects into a background log leaves its output
    there and prints the id of the detached process. *)
Definition demo_shell (cmd : string) (cwd : pyval) : spawn_result :=
  if match cwd with VStr dir => String.eqb dir "/nonexistent" | _ => false end
  then SpawnFails (Exn FileNotFoundError
                       "[Errno 2] No such file or directory: '/nonexistent'")
  else if String.eqb cmd "echo hello"
  then Spawned 4242 (over_after 0 ("hello" +:+ nl) 0 [])
  else if String.eqb cmd "sleep 10"
  then Spawned 4243
         (Behaviour (Some 10) (Some 10) (fun _ => Some 10) EmptyString 0 [])
  else if String.eqb cmd
       "pytest > /tmp/ai-terminal-outputs/bg_1700000000_pytest.log 2>&1 & echo $!"
  then Spawned 4244
         (over_after 0 ("4245" +:+ nl) 0
            [("bg_1700000000_pytest.log", "no tests ran" +:+ nl)])
  else if String.eqb cmd "sleep infinity"
  then Spawned 4247 (Behaviour None None (fun _ => None) EmptyString 0 [])
  else if String.eqb cmd "sleep 30 &"
  then Spawned 4248
         (Behaviour (Some 0) (Some 30) (fun _ => Some 30) EmptyString 0 [])
  else if String.eqb cmd "printf %03000d 0"
  then Spawned 4249 (over_after 0 (PyStr.repeat "0" 3000) 0 [])
  else if String.eqb cmd "no-such-command"
  then Spawned 4250
         (over_after 0 ("/bin/sh: 1: no-such-command: not found" +:+ nl) 127 [])
  else Spawned 4246 (over_after 0 EmptyString 127 []).

Definition demo_world : World :=
  mkWorld 1700000000 demo_ctime (Some "/home/dev") demo_dir [] true
          demo_shell (fun _ => NoSuchProcess) [] [].

(** A background invocation whose marker file is empty, as the launcher
    leaves it when the shell prints no process id. *)
Definition empty_marker_world : World :=
  mkWorld 1700000100 demo_ctime (Some "/home/dev") demo_dir
          [("bg_1700000000_sleep5.log", File EmptyString 1700000000 true Decodes);
           ("bg_1700000000_sleep5.pid", File EmptyString 1700000000 true Decodes)]
          true demo_shell (fun _ => NoSuchProcess) [] [].

(** A background invocation whose marker file cannot be read. *)
Definition unreadable_marker_world : World :=
  mkWorld 1700000100 demo_ctime (Some "/home/dev") demo_dir
          [("bg_1700000000_sleep5.log", File EmptyString 1700000000 true Decodes);
           ("bg_1700000000_sleep5.pid", File "4245" 1700000000 false Decodes)]
          true demo_shell (fun _ => Alive) [] [].

(** A log that cannot be read. *)
Definition unreadable_log_world : World :=
  mkWorld 1700000100 demo_ctime (Some "/home/dev") demo_dir
          [("safe_1700000000.log", File "secret" 1700000000 false Decodes)]
          true demo_shell (fun _ => NoSuchProcess) [] [].

(** One log of three lines. *)
Definition three_line_world : World :=
  mkWorld 1700000100 demo_ctime (Some "/home/dev") demo_dir
          [("safe_1700000000.log",
            File ("one" +:+ nl +:+ "two" +:+ nl +:+ "three" +:+ nl) 1700000000 true Decodes)]
          true demo_shell (fun _ => NoSuchProcess) [] [].

(** Three background invocations: one whose process is alive, one whose
    process is gone, one without a marker file. *)
Definition status_world : World :=
  mkWorld 1700000100 demo_ctime (Some "/home/dev") demo_dir
          [("bg_1700000000_make.log", File ("done" +:+ nl) 1700000010 true Decodes);
           ("bg_1700000000_make.pid", File "4100" 1700000000 true Decodes);
           ("bg_1700000050_sleep.log", File EmptyString 1700000050 true Decodes);
           ("bg_1700000050_sleep.pid", File "4245" 1700000050 true Decodes);
           ("bg_1700000020_pull.log", File EmptyString 1700000020 true Decodes);
           ("safe_1700000060.log", File EmptyString 1700000060 true Decodes)]
          true demo_shell
          (fun pid => if pid =? 4245 then Alive else NoSuchProcess) [] [].

(** *** Outcomes and their causes *)

(** The call returns, or raises an exception of which [P] holds; it does not
    hang. *)
Definition returns_or_raises {A} (P : exn -> Prop) (o : outcome A) : Prop :=
  match o with
  | Ret _ => True
  | Raise e => P e
  | Hang => False
  end.

(** Some file of the output directory may not be read. *)
Definition some_file_unreadable (w : World) : Prop :=
  exists name f, lookup_file name (w_files w) = Some f /\ f_readable f = false.

(** Some file of the output directory holds bytes that do not decode. *)
Definition some_file_undecodable (w : World) : Prop :=
  exists name f, lookup_file name (w_files w) = Some f /\ f_decoding f <> Decodes.

(** Some file of the output directory holds an integer that does not fit a C
    [int]. *)
Definition some_pid_too_large (w : World) : Prop :=
  exists name f pid,
    lookup_file name (w_files w) = Some f /\
    py_int (PyStr.strip (file_text f)) = Some pid /\
    ~ (-2147483648 <= pid <= 2147483647).

(** Why reading a file of the output directory can fail. *)
Definition read_failure (w : World) (e : exn) : Prop :=
  (exn_cls e = PermissionError /\ some_file_unreadable w) \/
  (exn_cls e = UnicodeDecodeError /\ some_file_undecodable w).

(** Why [check_status] can fail. *)
Definition check_status_failure (w : World) (e : exn) : Prop :=
  read_failure w e \/
  (exn_cls e = OverflowError /\ some_pid_too_large w).

Definition is_number (v : pyval) : bool :=
  match v with
  | VInt _ | VBool _ => true
  | VNone | VStr _ => false
  end.

(** Why [get_context] can fail. *)
Definition get_context_failure (args : gmap string pyval) (w : World) (e : exn) : Prop :=
  read_failure w e \/
  (exn_cls e = TypeError /\ is_number (default (VInt 50) (args !! "lines")) = false).

(** A server started in a directory that has been removed since. *)
Definition homeless_world : World :=
  mkWorld 1700000000 demo_ctime None demo_dir [] true
          demo_shell (fun _ => NoSuchProcess) [] [].

(** A background log that holds a byte no UTF-8 text has. *)
Definition garbled_log_world : World :=
  mkWorld 1700000100 demo_ctime (Some "/home/dev") demo_dir
          [("bg_1700000000_cat.log",
            File EmptyString 1700000000 true
              (FailsEarly
                 "'utf-8' codec can't decode byte 0xff in position 0: invalid start byte"))]
          true demo_shell (fun _ => NoSuchProcess) [] [].

(** A marker file with a number no process id can have. *)
Definition huge_pid_world : World :=
  mkWorld 1700000100 demo_ctime (Some "/home/dev") demo_dir
          [("bg_1700000000_sleep5.log", File EmptyString 1700000000 true Decodes);
           ("bg_1700000000_sleep5.pid", File "99999999999" 1700000000 true Decodes)]
          true demo_shell (fun _ => NoSuchProcess) [] [].

Definition known_tool (name : string) : Prop :=
  name = "run_command_safe" \/ name = "check_command_status" \/
  name = "get_terminal_context".

(** *** The report of [get_context] *)

(** The log files [get_context] reports on, newest first. *)
Definition listed_logs (w : World) : list (string * file) :=
  take 3 (sorted_by_mtime_desc
            (List.filter (fun nf => glob_match EmptyString ".log" (fst nf)) (w_files w))).

(** The last [n] of the lines [ls]. *)
Definition last_lines (n : nat) (ls : list string) : list string :=
  drop (length ls - n) ls.

(** What [get_context] shows of one log when asked for [n] lines: the whole
    text when it has at most [n] lines, else a note and its last [n] lines. *)
Definition context_block (n : Z) (w : World) (log_file : string) : string :=
  match lookup_file log_file (w_files w) with
  | None => EmptyString
  | Some f =>
      let content_lines := splitlines (file_text f) in
      nl +:+ "📄 " +:+ log_file +:+ nl +:+ rule_dash +:+ nl +:+
      (if n <? Z.of_nat (length content_lines)
       then "... (showing last " +:+ pretty n +:+ " lines)" +:+ nl +:+
            PyStr.join nl (last_lines (Z.to_nat n) content_lines)
       else file_text f) +:+
      nl +:+ rule_eq +:+ nl
  end.

(** *** The report of a background launch *)

(** The command line the background launcher hands to the shell. *)
Definition background_command_line (command log_path : string) : string :=
  command +:+ " > " +:+ log_path +:+ " 2>&1 & echo $!".

(** The report: the process id as the shell printed it, the path of the log
    and, when the log already holds something other than white space, its
    first characters. *)
Definition launch_text (pid log_path initial : string) : string :=
  "✅ Command started in background" +:+ nl +:+
  "PID: " +:+ pid +:+ nl +:+
  "Output file: " +:+ log_path +:+ nl +:+
  "Use check_command_status to monitor progress" +:+ nl +:+
  (if negb (String.eqb (PyStr.strip initial) EmptyString)
   then nl +:+ "=== Initial Output ===" +:+ nl +:+ initial
   else EmptyString).

(** Every character of [s] passes the test [f]. *)
Fixpoint all_chars (f : ascii -> bool) (s : string) : bool :=
  match s with
  | EmptyString => true
  | String c s' => f c && all_chars f s'
  end.

(** *** More worlds *)

(** The kernel knows the process the demo shell detaches. *)
Definition running_world : World :=
  mkWorld 1700000000 demo_ctime (Some "/home/dev") demo_dir [] true
          demo_shell (fun pid => if pid =? 4245 then Alive else NoSuchProcess) [] [].


(** * Properties *)

(** ** Strings *)

Lemma str_app_nil_l (s : string) : EmptyString +:+ s = s.
Proof. done. Qed.

Lemma str_app_cons (x : ascii) (a b : string) : String x a +:+ b = String x (a +:+ b).
Proof. done. Qed.

Lemma str_app_nil_r (s : string) : s +:+ EmptyString = s.
Proof. induction s as [|c s IH]; [done | by rewrite str_app_cons, IH]. Qed.

Lemma str_app_assoc (a b c : string) : (a +:+ b) +:+ c = a +:+ b +:+ c.
Proof. induction a as [|x a IH]; [done | by rewrite !str_app_cons, IH]. Qed.

Lemma str_length_app (a b : string) :
  String.length (a +:+ b) = (String.length a + String.length b)%nat.
Proof. induction a as [|x a IH]; [done | by rewrite str_app_cons; simpl; rewrite IH]. Qed.

Lemma str_take_length n s : String.length (PyStr.take n s) = Nat.min n (String.length s).
Proof.
  revert s. induction n as [|n IH]; intros [|c s]; simpl; try done.
  by rewrite IH.
Qed.

Lemma str_take_all n s : (String.length s <= n)%nat -> PyStr.take n s = s.
Proof.
  revert s. induction n as [|n IH]; intros [|c s] H; simpl in *; try done; try lia.
  rewrite IH; [done | lia].
Qed.

Lemma str_take_drop n s : PyStr.take n s +:+ PyStr.drop n s = s.
Proof.
  revert s. induction n as [|n IH]; intros [|c s]; simpl; try done.
  by rewrite str_app_cons, IH.
Qed.

Lemma is_prefix_app (p v : string) : PyStr.is_prefix p (p +:+ v) = true.
Proof.
  induction p as [|c p IH]; [done |].
  rewrite str_app_cons. simpl. by rewrite Ascii.eqb_refl.
Qed.

Lemma is_prefix_inv (p s : string) :
  PyStr.is_prefix p s = true -> exists v, s = p +:+ v.
Proof.
  revert s. induction p as [|c p IH]; intros s H.
  - by exists s.
  - destruct s as [|d s]; simpl in H; [done |].
    destruct (Ascii.eqb_spec c d) as [->|]; [| done].
    destruct (IH _ H) as [v ->]. by exists v.
Qed.

(** [p in s] holds exactly when [s] can be cut around an occurrence of [p]. *)
Lemma contains_spec (p s : string) :
  PyStr.contains p s = true <-> exists u v, s = u +:+ p +:+ v.
Proof.
  split.
  - induction s as [|c s IH]; simpl; intros H.
    + rewrite orb_false_r in H. destruct (is_prefix_inv _ _ H) as [v Hv].
      by exists EmptyString, v.
    + apply orb_true_iff in H as [H|H].
      * destruct (is_prefix_inv _ _ H) as [v Hv]. by exists EmptyString, v.
      * destruct (IH H) as (u & v & ->). by exists (String c u), v.
  - intros (u & v & ->). induction u as [|c u IH].
    + rewrite str_app_nil_l.
      assert (PyStr.is_prefix p (p +:+ v) = true) as H by apply is_prefix_app.
      destruct (p +:+ v); simpl; by rewrite H.
    + rewrite str_app_cons. simpl. rewrite IH. apply orb_true_r.
Qed.

Lemma lower_app (a b : string) :
  PyStr.lower (a +:+ b) = PyStr.lower a +:+ PyStr.lower b.
Proof. induction a as [|x a IH]; [done | by rewrite str_app_cons; simpl; rewrite IH]. Qed.

Lemma any_pattern_in_spec (patterns : list string) (text : string) :
  any_pattern_in patterns text = true <->
  exists kw, kw ∈ patterns /\ exists u v, text = u +:+ kw +:+ v.
Proof.
  unfold any_pattern_in. rewrite existsb_exists. split.
  - intros (kw & Hin & H). exists kw. split; [by apply list_elem_of_In |].
    by apply contains_spec.
  - intros (kw & Hin & H). exists kw. split; [by apply list_elem_of_In |].
    by apply contains_spec.
Qed.

(** ** The classifier *)

Lemma any_pattern_in_mentions (family : list string) (command : string) :
  any_pattern_in family (PyStr.lower command) = true <-> mentions family command.
Proof. apply any_pattern_in_spec. Qed.

Lemma any_pattern_in_false (family : list string) (command : string) :
  any_pattern_in family (PyStr.lower command) = false <-> ~ mentions family command.
Proof.
  rewrite <- any_pattern_in_mentions.
  destruct (any_pattern_in family (PyStr.lower command)); naive_solver.
Qed.

Lemma flush_length (cur : string) :
  length (PyStr.flush cur) = if String.eqb cur EmptyString then 0%nat else 1%nat.
Proof. by destruct cur. Qed.

Lemma split_go_length (cur s : string) :
  length (PyStr.split_go cur s) =
  ((if String.eqb cur EmptyString then 0 else 1) +
   token_count_from (String.eqb cur EmptyString) s)%nat.
Proof.
  revert cur. induction s as [|c s IH]; intros cur; simpl.
  - rewrite flush_length. lia.
  - destruct (PyStr.isspace c); simpl.
    + rewrite length_app, flush_length, IH. simpl. rewrite andb_false_r. lia.
    + rewrite IH. simpl. rewrite andb_true_r. destruct (String.eqb cur EmptyString); lia.
Qed.

Lemma split_length (s : string) : length (PyStr.split s) = token_count s.
Proof. unfold PyStr.split. by rewrite split_go_length. Qed.

Lemma keyword_in_any_case (family : list string) (before kw after : string) :
  PyStr.lower kw ∈ family -> mentions family (before +:+ kw +:+ after).
Proof.
  intros Hin. exists (PyStr.lower kw). split; [done |].
  exists (PyStr.lower before), (PyStr.lower after). by rewrite !lower_app.
Qed.

Lemma classify_command_ref (command : string) :
  classify_ref command (classify_command command).
Proof.
  unfold classify_command.
  destruct (any_pattern_in test_patterns _) eqn:Ht.
  { apply ref_test. by apply any_pattern_in_mentions. }
  apply any_pattern_in_false in Ht.
  destruct (any_pattern_in build_patterns _) eqn:Hb.
  { apply ref_build; [done |]. by apply any_pattern_in_mentions. }
  apply any_pattern_in_false in Hb.
  destruct (any_pattern_in long_patterns _) eqn:Hl.
  { apply ref_long; [done..|]. by apply any_pattern_in_mentions. }
  apply any_pattern_in_false in Hl.
  rewrite split_length.
  destruct (Nat.ltb_spec 5 (token_count command)).
  - by apply ref_complex.
  - by apply ref_quick.
Qed.

Lemma classify_ref_functional (command c1 c2 : string) :
  classify_ref command c1 -> classify_ref command c2 -> c1 = c2.
Proof. intros H1 H2. destruct H1; destruct H2; try done; lia. Qed.

(** C2 (as amended).  [classify_command] is a total function that meets the
    first-match-wins policy of the specification and is the only one to do
    so: [test] when the lowercased command contains a test keyword, else
    [build] for a build keyword, else [long] for a network, install or sync
    keyword, else [complex] for more than 5 whitespace-delimited tokens, else
    [quick].  A keyword counts wherever it stands in the command line and in
    any capitalisation; the category returned is that of the first family,
    in the order test, build, long, with a keyword in the command. *)
Theorem classify_command_first_match :
  (forall command, classify_ref command (classify_command command)) /\
  (forall command c, classify_ref command c -> classify_command command = c) /\
  (forall before kw after,
     PyStr.lower kw ∈ test_patterns ->
     classify_command (before +:+ kw +:+ after) = "test") /\
  (forall before kw after,
     PyStr.lower kw ∈ build_patterns ->
     ~ mentions test_patterns (before +:+ kw +:+ after) ->
     classify_command (before +:+ kw +:+ after) = "build") /\
  (forall before kw after,
     PyStr.lower kw ∈ long_patterns ->
     ~ mentions test_patterns (before +:+ kw +:+ after) ->
     ~ mentions build_patterns (before +:+ kw +:+ after) ->
     classify_command (before +:+ kw +:+ after) = "long") /\
  (forall command,
     ~ mentions test_patterns command ->
     ~ mentions build_patterns command ->
     ~ mentions long_patterns command ->
     classify_command command =
       if (5 <? token_count command)%nat then "complex" else "quick").
Proof.
  assert (forall command c, classify_ref command c -> classify_command command = c) as Huniq.
  { intros command c Hc.
    exact (classify_ref_functional _ _ _ (classify_command_ref command) Hc). }
  split; [exact classify_command_ref |].
  split; [exact Huniq |].
  split; [| split; [| split]].
  - intros before kw after Hin. apply Huniq, ref_test.
    by apply keyword_in_any_case.
  - intros before kw after Hin Hnt. apply Huniq, ref_build; [done |].
    by apply keyword_in_any_case.
  - intros before kw after Hin Hnt Hnb. apply Huniq, ref_long; [done..|].
    by apply keyword_in_any_case.
  - intros command Hnt Hnb Hnl. apply Huniq.
    destruct (Nat.ltb_spec 5 (token_count command)).
    + by apply ref_complex.
    + by apply ref_quick.
Qed.

Ltac in_list :=
  apply list_elem_of_In; vm_compute; repeat first [left; reflexivity | right].

Lemma not_mentions_by_computation (family : list string) (command : string) :
  any_pattern_in family (PyStr.lower command) = false -> ~ mentions family command.
Proof. apply any_pattern_in_false. Qed.

Lemma classify_command_first_match_witness :
  classify_ref "ls -la" (classify_command "ls -la") /\
  classify_command "ls -la" = "quick" /\
  classify_command ("run " +:+ "PyTest" +:+ " -q") = "test" /\
  classify_command ("sudo " +:+ "MAKE" +:+ " all") = "build" /\
  classify_command ("git " +:+ "Pull" +:+ " origin") = "long" /\
  classify_command "ls -l -a -h -t /" = "complex".
Proof.
  destruct classify_command_first_match as (H1 & H2 & H3 & H4 & H5 & H6).
  split; [apply H1 |].
  split.
  { apply H2. apply ref_quick; try (apply not_mentions_by_computation; vm_compute; reflexivity).
    vm_compute. lia. }
  split.
  { apply H3. in_list. }
  split.
  { apply H4.
    - in_list.
    - apply not_mentions_by_computation. vm_compute. reflexivity. }
  split.
  { apply H5.
    - in_list.
    - apply not_mentions_by_computation. vm_compute. reflexivity.
    - apply not_mentions_by_computation. vm_compute. reflexivity. }
  apply (H6 "ls -l -a -h -t /");
    apply not_mentions_by_computation; vm_compute; reflexivity.
Defined.

(** C2 (as stated) fails: a command that contains a keyword of the build
    family is not always classified [build]; ["make test"] contains [make]
    and is classified [test], the family tried first. *)
Lemma classify_keyword_category_counterexample :
  ~ (forall command kw,
       kw ∈ build_patterns -> occurs_in kw (PyStr.lower command) ->
       classify_command command = "build").
Proof.
  intros H.
  specialize (H "make test" "make").
  assert (classify_command "make test" = "build") as Hbad.
  { apply H.
    - in_list.
    - by exists EmptyString, " test". }
  vm_compute in Hbad. discriminate Hbad.
Qed.

(** ** The output directory and the monad *)

Lemma lookup_store_eq name f fs : lookup_file name (store_file name f fs) = Some f.
Proof.
  induction fs as [|[n g] fs IH]; simpl.
  - by rewrite String.eqb_refl.
  - destruct (String.eqb n name) eqn:E; simpl.
    + by rewrite String.eqb_refl.
    + by rewrite E.
Qed.

Lemma lookup_store_ne name other f fs :
  name <> other -> lookup_file other (store_file name f fs) = lookup_file other fs.
Proof.
  intros Hne. induction fs as [|[n g] fs IH]; simpl.
  - by apply String.eqb_neq in Hne as ->.
  - destruct (String.eqb_spec n name) as [->|Hn]; simpl.
    + by apply String.eqb_neq in Hne as ->.
    + by rewrite IH.
Qed.

Lemma store_store name f g fs :
  store_file name g (store_file name f fs) = store_file name g fs.
Proof.
  induction fs as [|[n h] fs IH]; simpl.
  - by rewrite String.eqb_refl.
  - destruct (String.eqb n name) eqn:E; simpl.
    + by rewrite String.eqb_refl.
    + by rewrite E, IH.
Qed.

(** A process leaves alone the files it does not write. *)
Lemma lookup_apply_writes_other name now ws fs :
  name ∉ ws.*1 -> lookup_file name (apply_writes now ws fs) = lookup_file name fs.
Proof.
  revert fs. induction ws as [|[n c] ws IH]; intros fs Hn; [done |].
  unfold apply_writes. simpl. apply not_elem_of_cons in Hn as [Hne Hn].
  fold (apply_writes now ws (store_file n (File c now true Decodes) fs)).
  rewrite IH by done. by apply lookup_store_ne.
Qed.

Ltac world_nf :=
  unfold set_files, set_now, set_children, log_event, reap, returncode;
  cbn [w_now w_ctime w_getcwd w_output_dir w_files w_writable w_shell w_kill0
       w_children w_events p_pid p_behaviour p_started].

Lemma bind_run {A B} (m : M A) (k : A -> M B) w a w' :
  m w = (Ret a, w') -> bind m k w = k a w'.
Proof. unfold bind. by intros ->. Qed.

Lemma bind_raise {A B} (m : M A) (k : A -> M B) w e w' :
  m w = (Raise e, w') -> bind m k w = (Raise e, w').
Proof. unfold bind. by intros ->. Qed.

Lemma try_except_ret {A} catches (body : M A) handler w a w' :
  body w = (Ret a, w') -> try_except catches body handler w = (Ret a, w').
Proof. unfold try_except. by intros ->. Qed.

Lemma try_except_caught {A} catches (body : M A) handler w e w' :
  body w = (Raise e, w') -> catches (exn_cls e) = true ->
  try_except catches body handler w = handler e w'.
Proof. unfold try_except. by intros -> ->. Qed.

Lemma open_w_run name w :
  w_writable w = true ->
  open_w name w =
  (Ret tt, log_event (EvOpenW name)
             (set_files
                (store_file name
                   (File EmptyString (w_now w) (readable_flag name (w_files w)) Decodes)
                   (w_files w)) w)).
Proof. unfold open_w. by intros ->. Qed.

Lemma open_a_run name w f :
  w_writable w = true -> lookup_file name (w_files w) = Some f ->
  open_a name w = (Ret tt, log_event (EvOpenA name) w).
Proof. unfold open_a. by intros -> ->. Qed.

Lemma f_write_run name text data m r dc fs w :
  w_files w = store_file name (File data m r dc) fs ->
  f_write name text w =
  (Ret tt, set_files (store_file name (File (data +:+ text) (w_now w) r dc) fs) w).
Proof.
  intros H. unfold f_write, readable_flag, decoding_flag.
  rewrite H, lookup_store_eq. simpl. by rewrite store_store.
Qed.

Lemma f_write_run_lookup name text data m r dc w :
  lookup_file name (w_files w) = Some (File data m r dc) ->
  f_write name text w =
  (Ret tt,
   set_files (store_file name (File (data +:+ text) (w_now w) r dc) (w_files w)) w).
Proof. intros H. unfold f_write, readable_flag, decoding_flag. by rewrite H. Qed.

Lemma open_r_run name w f :
  lookup_file name (w_files w) = Some f -> f_readable f = true ->
  open_r name w = (Ret f, w).
Proof. unfold open_r. by intros -> ->. Qed.

Lemma f_read_run f w : f_decoding f = Decodes -> f_read f w = (Ret (file_text f), w).
Proof. unfold f_read. by intros ->. Qed.

Lemma f_read_n_run n f w :
  f_decoding f = Decodes -> f_read_n n f w = (Ret (PyStr.take n (file_text f)), w).
Proof. unfold f_read_n. by intros ->. Qed.

Ltac run_write :=
  erewrite (bind_run (f_write _ _)) by (eapply f_write_run; reflexivity); world_nf.
Ltac run_get m :=
  erewrite (bind_run m) by reflexivity; world_nf.

(** The header is written and the process started: the common first half of
    a bounded execution. *)
Ltac run_header Hw :=
  run_get time_time;
  erewrite (bind_run (open_w _)) by (by apply open_w_run); world_nf;
  do 4 run_write;
  run_get time_ctime;
  do 2 run_write.

Ltac run_spawn Hs :=
  erewrite (bind_run (create_subprocess_shell _ _))
    by (unfold create_subprocess_shell; world_nf; rewrite Hs; reflexivity);
  world_nf.

Ltac str_nf := unfold safe_header, completion_summary, timeout_marker,
                 success_text, timeout_text, error_text;
               rewrite ?str_app_assoc, ?str_app_nil_l, ?str_app_nil_r.

(** ** Bounded execution: the outcomes *)

(** Each lemma gives the outcome and the whole world after the call.  In
    all of them the log is opened for writing first and holds the header
    before the command is handed to the shell. *)
Lemma bounded_run_spawn_failure command cwd t w e :
  w_writable w = true ->
  w_shell w command cwd = SpawnFails e ->
  let log := safe_log_name (w_now w) in
  let header := safe_header command cwd (VInt t) (w_ctime w (w_now w)) in
  execute_with_timeout command cwd (VInt t) w =
  (Ret (text_result (error_text e)),
   mkWorld (w_now w) (w_ctime w) (w_getcwd w) (w_output_dir w)
     (store_file log (File header (w_now w) (readable_flag log (w_files w)) Decodes)
        (w_files w))
     (w_writable w) (w_shell w) (w_kill0 w) (w_children w)
     (w_events w ++ [EvOpenW log])).
Proof.
  intros Hw Hs log header. unfold execute_with_timeout.
  erewrite try_except_caught; [reflexivity | | reflexivity].
  run_header Hw.
  erewrite bind_raise; [| unfold create_subprocess_shell; world_nf; by rewrite Hs].
  subst log header. rewrite <- ?app_assoc. str_nf. reflexivity.
Qed.

Lemma bounded_run_success command cwd t w pid b :
  w_writable w = true ->
  w_shell w command cwd = Spawned pid b ->
  exits_in_time t b = true ->
  safe_log_name (w_now w) ∉ (b_writes b).*1 ->
  let log := safe_log_name (w_now w) in
  let header := safe_header command cwd (VInt t) (w_ctime w (w_now w)) in
  let r0 := readable_flag log (w_files w) in
  let finished := w_now w + run_time b in
  let content :=
    header +:+ b_stdout b +:+ completion_summary (b_returncode b) (w_ctime w finished) in
  execute_with_timeout command cwd (VInt t) w =
  (Ret (text_result
          (success_text (b_returncode b) (b_stdout b) (w_output_dir w +:+ "/" +:+ log))),
   mkWorld finished (w_ctime w) (w_getcwd w) (w_output_dir w)
     (store_file log (File content finished r0 Decodes)
        (apply_writes (w_now w) (b_writes b)
           (store_file log (File header (w_now w) r0 Decodes) (w_files w))))
     (w_writable w) (w_shell w) (w_kill0 w)
     (List.filter (fun p => negb (p =? pid)) (w_children w ++ [pid]))
     (w_events w ++ [EvOpenW log; EvSpawn pid command; EvOpenA log])).
Proof.
  intros Hw Hs Hin Hwr log header r0 finished content.
  unfold exits_in_time in Hin. unfold run_time in finished.
  destruct (b_exit b) as [d|] eqn:He; [| done].
  apply andb_true_iff in Hin as [Hin Hfl]. apply negb_true_iff in Hfl.
  unfold execute_with_timeout.
  erewrite try_except_ret; [reflexivity |].
  run_header Hw. run_spawn Hs.
  erewrite try_except_ret; [reflexivity |].
  erewrite (bind_run (wait_for_communicate _ _)).
  2:{ unfold wait_for_communicate, communicate. world_nf. by rewrite Hfl, He, Hin. }
  world_nf.
  erewrite (bind_run (open_a _)).
  2:{ eapply open_a_run; world_nf; [done |].
      rewrite lookup_apply_writes_other by done. apply lookup_store_eq. }
  world_nf.
  erewrite (bind_run (f_write _ _)).
  2:{ eapply f_write_run_lookup. world_nf.
      rewrite lookup_apply_writes_other by done. apply lookup_store_eq. }
  world_nf. do 2 run_write. run_get time_ctime. run_write.
  run_get (path_str (safe_log_name (w_now w))).
  unfold ret. subst log header r0 finished content. world_nf.
  unfold success_text. rewrite <- ?app_assoc.
  destruct (2000 <? String.length (b_stdout b))%nat; str_nf; reflexivity.
Qed.

Lemma deadline_first_raises t pid b started w :
  deadline_first t b = true ->
  wait_for_communicate (Process pid b started) (VInt t) w =
  (Raise (Exn TimeoutError EmptyString), set_now (w_now w + Z.max 0 t) w).
Proof.
  unfold deadline_first, wait_for_communicate.
  intros [Hfl Hd]%andb_true_iff. apply negb_true_iff in Hfl. rewrite Hfl.
  cbn [p_behaviour]. destruct (b_exit b) as [d |]; [| done].
  by apply negb_true_iff in Hd as ->.
Qed.

(** The deadline comes first and the wait after the kill returns [r]
    seconds into the run. *)
Lemma bounded_run_timeout command cwd t w pid b r :
  w_writable w = true ->
  w_shell w command cwd = Spawned pid b ->
  deadline_first t b = true ->
  wait_returns b (Z.max 0 t) = Some r ->
  safe_log_name (w_now w) ∉ (b_writes b).*1 ->
  let log := safe_log_name (w_now w) in
  let header := safe_header command cwd (VInt t) (w_ctime w (w_now w)) in
  let r0 := readable_flag log (w_files w) in
  let returned := w_now w + r in
  let content := header +:+ timeout_marker (VInt t) (w_ctime w returned) in
  execute_with_timeout command cwd (VInt t) w =
  (Ret (text_result (timeout_text (VInt t) (w_output_dir w +:+ "/" +:+ log))),
   mkWorld returned (w_ctime w) (w_getcwd w) (w_output_dir w)
     (store_file log (File content returned r0 Decodes)
        (apply_writes (w_now w) (b_writes b)
           (store_file log (File header (w_now w) r0 Decodes) (w_files w))))
     (w_writable w) (w_shell w) (w_kill0 w)
     (List.filter (fun p => negb (p =? pid)) (w_children w ++ [pid]))
     (w_events w ++
        [EvOpenW log; EvSpawn pid command; EvKill pid; EvWait pid; EvOpenA log])).
Proof.
  intros Hw Hs Hfirst Hwait Hwr log header r0 returned content.
  unfold execute_with_timeout.
  erewrite try_except_ret; [reflexivity |].
  run_header Hw. run_spawn Hs.
  erewrite try_except_caught; cycle 1.
  { erewrite bind_raise; [reflexivity |]. by apply deadline_first_raises. }
  { reflexivity. }
  world_nf.
  erewrite (bind_run (process_kill _)) by reflexivity. world_nf.
  erewrite (bind_run (process_wait _)).
  2:{ unfold process_wait. world_nf.
      replace (w_now w + Z.max 0 t - w_now w) with (Z.max 0 t) by lia.
      rewrite Hwait. reflexivity. }
  world_nf.
  erewrite (bind_run (open_a _)).
  2:{ eapply open_a_run; world_nf; [done |].
      rewrite lookup_apply_writes_other by done. apply lookup_store_eq. }
  world_nf.
  erewrite (bind_run (f_write _ _)).
  2:{ eapply f_write_run_lookup. world_nf.
      rewrite lookup_apply_writes_other by done. apply lookup_store_eq. }
  world_nf. run_write. run_get time_ctime. run_write.
  run_get (path_str (safe_log_name (w_now w))).
  unfold ret. subst log header r0 returned content. world_nf.
  rewrite <- ?app_assoc. str_nf. reflexivity.
Qed.

(** The deadline comes first and the wait after the kill never returns:
    neither does the call, and the log keeps the header alone. *)
Lemma bounded_run_stuck command cwd t w pid b :
  w_writable w = true ->
  w_shell w command cwd = Spawned pid b ->
  deadline_first t b = true ->
  wait_returns b (Z.max 0 t) = None ->
  let log := safe_log_name (w_now w) in
  let header := safe_header command cwd (VInt t) (w_ctime w (w_now w)) in
  let r0 := readable_flag log (w_files w) in
  execute_with_timeout command cwd (VInt t) w =
  (Hang,
   mkWorld (w_now w + Z.max 0 t) (w_ctime w) (w_getcwd w) (w_output_dir w)
     (apply_writes (w_now w) (b_writes b)
        (store_file log (File header (w_now w) r0 Decodes) (w_files w)))
     (w_writable w) (w_shell w) (w_kill0 w) (w_children w ++ [pid])
     (w_events w ++ [EvOpenW log; EvSpawn pid command; EvKill pid; EvWait pid])).
Proof.
  intros Hw Hs Hfirst Hwait log header r0.
  unfold execute_with_timeout, try_except at 1.
  run_header Hw. run_spawn Hs.
  erewrite try_except_caught; cycle 1.
  { erewrite bind_raise; [reflexivity |]. by apply deadline_first_raises. }
  { reflexivity. }
  world_nf.
  erewrite (bind_run (process_kill _)) by reflexivity. world_nf.
  unfold bind at 1, process_wait. world_nf.
  replace (w_now w + Z.max 0 t - w_now w) with (Z.max 0 t) by lia.
  rewrite Hwait. world_nf.
  subst log header r0. rewrite <- ?app_assoc. str_nf. reflexivity.
Qed.

(** A deadline too large for the clock of the event loop: the process has
    been started, nothing waits for it and the error is reported. *)
Lemma bounded_run_overflow command cwd t w pid b :
  w_writable w = true ->
  w_shell w command cwd = Spawned pid b ->
  float_overflow t = true ->
  let log := safe_log_name (w_now w) in
  let header := safe_header command cwd (VInt t) (w_ctime w (w_now w)) in
  let r0 := readable_flag log (w_files w) in
  execute_with_timeout command cwd (VInt t) w =
  (Ret (text_result
          (error_text (Exn OverflowError "int too large to convert to float"))),
   mkWorld (w_now w) (w_ctime w) (w_getcwd w) (w_output_dir w)
     (apply_writes (w_now w) (b_writes b)
        (store_file log (File header (w_now w) r0 Decodes) (w_files w)))
     (w_writable w) (w_shell w) (w_kill0 w) (w_children w ++ [pid])
     (w_events w ++ [EvOpenW log; EvSpawn pid command])).
Proof.
  intros Hw Hs Hfl log header r0. unfold execute_with_timeout.
  erewrite try_except_caught; [reflexivity | | reflexivity].
  run_header Hw. run_spawn Hs.
  unfold try_except, bind at 1, wait_for_communicate. rewrite Hfl. cbn.
  subst log header r0. rewrite <- ?app_assoc. str_nf. reflexivity.
Qed.

Lemma reaped_child_gone pid (children : list Z) :
  pid ∉ List.filter (fun p => negb (p =? pid)) children.
Proof.
  rewrite list_elem_of_In, filter_In. intros [_ H].
  by rewrite Z.eqb_refl in H.
Qed.

(** C3, at the failing inputs.  With a deadline of one second the shell of
    [sleep infinity] is killed when the deadline has elapsed, but
    the wait that follows never returns, because the [sleep] that the shell
    had started still holds the captured pipe: the call hangs after the
    kill, the log keeps the header alone, no timeout marker is appended and
    no report is returned.  For [sleep 10] that wait returns when the
    [sleep] exits: the marker and the timeout report come ten seconds after
    the start, not one. *)
Theorem timeout_wait_outlasts_deadline :
  let log := "safe_1700000000.log" in
  let stuck := execute_with_timeout "sleep infinity" (VStr ".") (VInt 1) demo_world in
  let late := execute_with_timeout "sleep 10" (VStr ".") (VInt 1) demo_world in
  fst stuck = Hang /\
  w_events (snd stuck) =
    [EvOpenW log; EvSpawn 4247 "sleep infinity"; EvKill 4247; EvWait 4247] /\
  f_data <$> lookup_file log (w_files (snd stuck)) =
    Some (safe_header "sleep infinity" (VStr ".") (VInt 1) (demo_ctime 1700000000)) /\
  fst late =
    Ret (text_result
           (timeout_text (VInt 1) "/tmp/ai-terminal-outputs/safe_1700000000.log")) /\
  w_now (snd late) = 1700000010 /\
  f_data <$> lookup_file log (w_files (snd late)) =
    Some (safe_header "sleep 10" (VStr ".") (VInt 1) (demo_ctime 1700000000) +:+
          timeout_marker (VInt 1) (demo_ctime 1700000010)).
Proof.
  intros log stuck late. subst stuck late.
  rewrite (bounded_run_stuck "sleep infinity" (VStr ".") 1 demo_world 4247
             (Behaviour None None (fun _ => None) EmptyString 0 []))
    by reflexivity.
  rewrite (bounded_run_timeout "sleep 10" (VStr ".") 1 demo_world 4243
             (Behaviour (Some 10) (Some 10) (fun _ => Some 10) EmptyString 0 []) 10)
    by (try reflexivity; simpl; apply not_elem_of_nil).
  cbn [fst snd w_events w_now w_files].
  split; [reflexivity |]. split; [reflexivity |]. split; [reflexivity |].
  split; [reflexivity |]. split; [reflexivity |]. reflexivity.
Qed.

(** C4 (as amended).  When the process of a bounded execution has exited and
    its captured output is at end of file before the deadline, the whole
    captured output, then the exit code and the completion time are appended
    to the log of the invocation, and the success report carries the exit
    code and the first 2000 characters of the output (all of it when it is
    shorter), followed by a pointer to the full log exactly when the output
    has more than 2000 characters.  (The deadline is one the clock of the
    event loop can hold, the output directory accepts writes, and the
    command does not itself write into that log.) *)
Theorem bounded_success_logs_and_reports command cwd t w pid b d :
  w_writable w = true ->
  w_shell w command cwd = Spawned pid b ->
  b_exit b = Some d -> 0 <= d < t -> float_overflow t = false ->
  safe_log_name (w_now w) ∉ (b_writes b).*1 ->
  let log := safe_log_name (w_now w) in
  let log_path := w_output_dir w +:+ "/" +:+ log in
  let output := b_stdout b in
  let excerpt := PyStr.take 2000 output in
  let report :=
    "✅ Command completed successfully" +:+ nl +:+
    "Exit Code: " +:+ pretty (b_returncode b) +:+ nl +:+
    "Output:" +:+ nl +:+ excerpt +:+
    (if (2000 <? String.length output)%nat
     then nl +:+ "... (truncated, full output in " +:+ log_path +:+ ")"
     else EmptyString) in
  exists w',
    execute_with_timeout command cwd (VInt t) w = (Ret (text_result report), w') /\
    is_success_report report = true /\
    String.length excerpt = Nat.min 2000 (String.length output) /\
    (exists rest, output = excerpt +:+ rest) /\
    f_data <$> lookup_file log (w_files w') =
      Some (safe_header command cwd (VInt t) (w_ctime w (w_now w)) +:+
            output +:+
            completion_summary (b_returncode b) (w_ctime w (w_now w + d))) /\
    w_events w' = w_events w ++ [EvOpenW log; EvSpawn pid command; EvOpenA log].
Proof.
  intros Hw Hs He Hd Hfl Hwr log log_path output excerpt report.
  assert (exits_in_time t b = true) as Hin.
  { unfold exits_in_time. rewrite He, Hfl. repeat (apply andb_true_iff; split); lia. }
  assert (run_time b = d) as Hrt.
  { unfold run_time. rewrite He. lia. }
  eexists. split; [by apply bounded_run_success |].
  world_nf. split; [done |].
  split; [apply str_take_length |].
  split; [exists (PyStr.drop 2000 output); subst excerpt; by rewrite str_take_drop |].
  split; [by rewrite lookup_store_eq, Hrt |].
  done.
Qed.

Lemma bounded_success_logs_and_reports_witness :
  (exists w',
     execute_with_timeout "echo hello" (VStr ".") (VInt 5) demo_world =
       (Ret (text_result
               ("✅ Command completed successfully" +:+ nl +:+
                "Exit Code: 0" +:+ nl +:+ "Output:" +:+ nl +:+ "hello" +:+ nl)), w')) /\
  (exists w',
     execute_with_timeout "printf %03000d 0" (VStr ".") (VInt 5) demo_world =
       (Ret (text_result
               ("✅ Command completed successfully" +:+ nl +:+
                "Exit Code: 0" +:+ nl +:+ "Output:" +:+ nl +:+
                PyStr.repeat "0" 2000 +:+ nl +:+
                "... (truncated, full output in " +:+
                "/tmp/ai-terminal-outputs/safe_1700000000.log)")), w') /\
     f_data <$> lookup_file "safe_1700000000.log" (w_files w') =
       Some (safe_header "printf %03000d 0" (VStr ".") (VInt 5) (demo_ctime 1700000000) +:+
             PyStr.repeat "0" 3000 +:+
             completion_summary 0 (demo_ctime 1700000000))).
Proof.
  split.
  - destruct (bounded_success_logs_and_reports "echo hello" (VStr ".") 5 demo_world 4242
                (over_after 0 ("hello" +:+ nl) 0 []) 0)
      as (w' & Hrun & _).
    + reflexivity.
    + reflexivity.
    + reflexivity.
    + lia.
    + reflexivity.
    + simpl. apply not_elem_of_nil.
    + exists w'. exact Hrun.
  - destruct (bounded_success_logs_and_reports "printf %03000d 0" (VStr ".") 5 demo_world
                4249 (over_after 0 (PyStr.repeat "0" 3000) 0 []) 0)
      as (w' & Hrun & _ & _ & _ & Hlog & _).
    + reflexivity.
    + reflexivity.
    + reflexivity.
    + lia.
    + reflexivity.
    + simpl. apply not_elem_of_nil.
    + exists w'. split; [exact Hrun | exact Hlog].
Defined.

(** C4 (as stated) fails: a process that exits before the deadline is not
    enough.  The shell of [sleep 30 &] exits at once, well before a deadline
    of five seconds, but the detached [sleep] holds the captured pipe, so
    that the deadline elapses first: the report is the timeout report, not
    the success report, and the log ends with the timeout marker, without
    exit code or completion time. *)
Lemma exit_with_held_pipe_counterexample :
  exists pid b w',
    w_shell demo_world "sleep 30 &" (VStr ".") = Spawned pid b /\
    b_quit b = Some 0 /\ 0 < 5 /\
    execute_with_timeout "sleep 30 &" (VStr ".") (VInt 5) demo_world =
      (Ret (text_result
              (timeout_text (VInt 5) "/tmp/ai-terminal-outputs/safe_1700000000.log")),
       w') /\
    is_success_report
      (timeout_text (VInt 5) "/tmp/ai-terminal-outputs/safe_1700000000.log") = false /\
    f_data <$> lookup_file "safe_1700000000.log" (w_files w') =
      Some (safe_header "sleep 30 &" (VStr ".") (VInt 5) (demo_ctime 1700000000) +:+
            timeout_marker (VInt 5) (demo_ctime 1700000005)).
Proof.
  exists 4248, (Behaviour (Some 0) (Some 30) (fun _ => Some 30) EmptyString 0 []).
  eexists. split; [reflexivity |]. split; [reflexivity |]. split; [lia |].
  split.
  - apply (bounded_run_timeout "sleep 30 &" (VStr ".") 5 demo_world 4248
             (Behaviour (Some 0) (Some 30) (fun _ => Some 30) EmptyString 0 []) 5);
      try reflexivity.
    simpl. apply not_elem_of_nil.
  - split; reflexivity.
Qed.

(** C5 (as amended).  When the process of a bounded execution cannot be
    started, that is, when starting the shell raises, as it does for a
    working directory that does not exist, the report is the error report
    with the text of the error, neither the success nor the timeout report;
    the log holds the header, already written, and nothing is appended to
    it: the only thing the server has done is to open the log for
    writing. *)
Theorem bounded_startup_failure_reports command cwd t w e :
  w_writable w = true ->
  w_shell w command cwd = SpawnFails e ->
  let log := safe_log_name (w_now w) in
  let report := "❌ Error executing command: " +:+ exn_str e in
  exists w',
    execute_with_timeout command cwd (VInt t) w = (Ret (text_result report), w') /\
    is_error_report report = true /\
    is_success_report report = false /\
    is_timeout_report report = false /\
    f_data <$> lookup_file log (w_files w') =
      Some (safe_header command cwd (VInt t) (w_ctime w (w_now w))) /\
    w_events w' = w_events w ++ [EvOpenW log] /\
    w_children w' = w_children w.
Proof.
  intros Hw Hs log report.
  eexists. split; [by apply bounded_run_spawn_failure |].
  world_nf. split; [done |]. split; [done |]. split; [done |].
  split; [by rewrite lookup_store_eq |]. done.
Qed.

Lemma bounded_startup_failure_reports_witness :
  exists w',
    execute_with_timeout "ls" (VStr "/nonexistent") (VInt 8) demo_world =
      (Ret (text_result
              ("❌ Error executing command: " +:+
               "[Errno 2] No such file or directory: '/nonexistent'")), w') /\
    w_events w' = [EvOpenW "safe_1700000000.log"].
Proof.
  destruct (bounded_startup_failure_reports "ls" (VStr "/nonexistent") 8 demo_world
              (Exn FileNotFoundError "[Errno 2] No such file or directory: '/nonexistent'"))
    as (w' & Hrun & _ & _ & _ & _ & Hev & _).
  - reflexivity.
  - reflexivity.
  - exists w'. split; [exact Hrun | exact Hev].
Defined.

(** C5 (as stated) fails for a bad command.  The command line goes to the
    shell, and the shell starts whatever the command is: for
    [no-such-command] it complains and exits with 127.  The process has been
    spawned, so the report is the success report with that exit code, not a
    failure report, and the log is completed by the output and the summary
    like that of any other command. *)
Lemma bad_command_counterexample :
  let log := "safe_1700000000.log" in
  let complaint := "/bin/sh: 1: no-such-command: not found" +:+ nl in
  let report :=
    "✅ Command completed successfully" +:+ nl +:+
    "Exit Code: 127" +:+ nl +:+ "Output:" +:+ nl +:+ complaint in
  exists w',
    execute_with_timeout "no-such-command" (VStr ".") (VInt 8) demo_world =
      (Ret (text_result report), w') /\
    is_success_report report = true /\
    is_error_report report = false /\
    w_events w' = [EvOpenW log; EvSpawn 4250 "no-such-command"; EvOpenA log] /\
    f_data <$> lookup_file log (w_files w') =
      Some (safe_header "no-such-command" (VStr ".") (VInt 8) (demo_ctime 1700000000) +:+
            complaint +:+ completion_summary 127 (demo_ctime 1700000000)).
Proof.
  intros log complaint report. eexists. split.
  - apply (bounded_run_success "no-such-command" (VStr ".") 8 demo_world 4250
             (over_after 0 complaint 127 [])); try reflexivity.
    simpl. apply not_elem_of_nil.
  - repeat split; reflexivity.
Qed.

(** ** Routing *)

Lemma classify_command_range command :
  classify_command command ∈ ["test"; "build"; "long"; "complex"; "quick"].
Proof.
  unfold classify_command.
  repeat (match goal with |- context [if ?c then _ else _] => destruct c end);
    apply list_elem_of_In; simpl; tauto.
Qed.

Lemma str_in_spec (x : string) (xs : list string) : str_in x xs = true <-> x ∈ xs.
Proof.
  unfold str_in. rewrite existsb_exists, list_elem_of_In. split.
  - intros (y & Hy & ->%String.eqb_eq). done.
  - intros H. exists x. by rewrite String.eqb_refl.
Qed.

Lemma execute_safe_command_unfold (args : gmap string pyval) command w home :
  args !! "command" = Some (VStr command) ->
  w_getcwd w = Some home ->
  execute_safe_command args w =
  (if truthy (default (VBool false) (args !! "force_background")) ||
      str_in (classify_command command) ["test"; "build"; "long"]
   then execute_background command (default (VStr home) (args !! "cwd"))
   else execute_with_timeout command (default (VStr home) (args !! "cwd"))
          (py_or (default VNone (args !! "timeout")) (VInt safe_timeout))) w.
Proof.
  intros Hc Hh. unfold execute_safe_command. rewrite Hc.
  erewrite bind_run; [reflexivity |]. unfold os_getcwd. by rewrite Hh.
Qed.

(** C1 (as amended).  An execute call goes to the background launcher when
    [force_background] is true or the command is classified [test], [build]
    or [long], and to the bounded executor otherwise, that is, when the flag
    is absent or false and the category is [complex] or [quick].  Only the
    background path can be forced: no argument takes a [test], [build] or
    [long] command to the bounded executor. *)
Theorem execute_routing (args : gmap string pyval) command w home :
  args !! "command" = Some (VStr command) ->
  w_getcwd w = Some home ->
  let cwd := default (VStr home) (args !! "cwd") in
  let forced := truthy (default (VBool false) (args !! "force_background")) in
  let category := classify_command command in
  let timeout := py_or (default VNone (args !! "timeout")) (VInt safe_timeout) in
  category ∈ ["test"; "build"; "long"; "complex"; "quick"] /\
  (forced = true ->
   execute_safe_command args w = execute_background command cwd w) /\
  (category ∈ ["test"; "build"; "long"] ->
   execute_safe_command args w = execute_background command cwd w) /\
  (forced = false -> category ∈ ["complex"; "quick"] ->
   execute_safe_command args w = execute_with_timeout command cwd timeout w).
Proof.
  intros Hc Hh cwd forced category timeout.
  split; [apply classify_command_range |].
  rewrite (execute_safe_command_unfold args command w home Hc Hh).
  fold forced category cwd timeout.
  split; [by intros -> |].
  split.
  - intros Hcat%str_in_spec. rewrite Hcat. by rewrite orb_true_r.
  - intros -> Hcat.
    assert (str_in category ["test"; "build"; "long"] = false) as ->; [| done].
    apply list_elem_of_In in Hcat. simpl in Hcat.
    destruct Hcat as [<- | [<- | []]]; reflexivity.
Qed.

Lemma execute_routing_witness :
  execute_safe_command
    (<["command" := VStr "echo hello"]> (<["force_background" := VBool true]> ∅))
    demo_world
  = execute_background "echo hello" (VStr "/home/dev") demo_world /\
  execute_safe_command (<["command" := VStr "make all"]> ∅) demo_world
  = execute_background "make all" (VStr "/home/dev") demo_world /\
  execute_safe_command (<["command" := VStr "echo hello"]> ∅) demo_world
  = execute_with_timeout "echo hello" (VStr "/home/dev") (VInt 8) demo_world.
Proof.
  split; [| split].
  - refine (proj1 (proj2 (execute_routing _ "echo hello" demo_world "/home/dev" _ _)) _);
      reflexivity.
  - refine (proj1 (proj2 (proj2 (execute_routing _ "make all" demo_world "/home/dev" _ _))) _);
      [reflexivity | reflexivity | in_list].
  - refine (proj2 (proj2 (proj2 (execute_routing _ "echo hello" demo_world "/home/dev" _ _))) _ _);
      [reflexivity | reflexivity | reflexivity | in_list].
Defined.

(** C1 (as stated) fails: the bounded path cannot be forced.  A test command
    sent with [force_background] false and a timeout of its own is still
    launched in the background, and the report differs from the one the
    bounded executor would give. *)
Lemma forcing_bounded_path_counterexample :
  let args : gmap string pyval :=
    <["command" := VStr "pytest"]>
      (<["force_background" := VBool false]> (<["timeout" := VInt 5]> ∅)) in
  execute_safe_command args demo_world =
    execute_background "pytest" (VStr "/home/dev") demo_world /\
  fst (execute_safe_command args demo_world) <>
    fst (execute_with_timeout "pytest" (VStr "/home/dev") (VInt 5) demo_world).
Proof.
  split.
  - vm_compute. reflexivity.
  - vm_compute. discriminate.
Qed.

(** C10.  For an execute call that goes to the bounded executor, the timeout
    in force is the caller's [timeout] when it is given and not zero, and the
    built-in 8 seconds when it is absent, null or zero: a timeout of 0 is
    replaced by 8 and never used as a deadline. *)
Theorem bounded_effective_timeout (args : gmap string pyval) command w home :
  args !! "command" = Some (VStr command) ->
  w_getcwd w = Some home ->
  truthy (default (VBool false) (args !! "force_background")) = false ->
  classify_command command ∈ ["complex"; "quick"] ->
  let cwd := default (VStr home) (args !! "cwd") in
  (forall n, args !! "timeout" = Some (VInt n) -> n <> 0 ->
     execute_safe_command args w = execute_with_timeout command cwd (VInt n) w) /\
  (args !! "timeout" = None \/ args !! "timeout" = Some VNone \/
   args !! "timeout" = Some (VInt 0) ->
     execute_safe_command args w = execute_with_timeout command cwd (VInt 8) w).
Proof.
  intros Hc Hh Hf Hcat cwd.
  rewrite (execute_safe_command_unfold args command w home Hc Hh), Hf.
  assert (str_in (classify_command command) ["test"; "build"; "long"] = false) as ->.
  { apply list_elem_of_In in Hcat. simpl in Hcat.
    destruct Hcat as [<- | [<- | []]]; reflexivity. }
  fold cwd. simpl. split.
  - intros n -> Hn. simpl. unfold py_or. simpl.
    by apply Z.eqb_neq in Hn as ->.
  - by intros [-> | [-> | ->]].
Qed.

Lemma bounded_effective_timeout_witness :
  execute_safe_command
    (<["command" := VStr "echo hello"]> (<["timeout" := VInt 3]> ∅)) demo_world
  = execute_with_timeout "echo hello" (VStr "/home/dev") (VInt 3) demo_world /\
  execute_safe_command
    (<["command" := VStr "echo hello"]> (<["timeout" := VInt 0]> ∅)) demo_world
  = execute_with_timeout "echo hello" (VStr "/home/dev") (VInt 8) demo_world.
Proof.
  split.
  - refine (proj1 (bounded_effective_timeout _ "echo hello" demo_world "/home/dev" _ _ _ _)
              3 _ _); [reflexivity | reflexivity | reflexivity | in_list | reflexivity | lia].
  - refine (proj2 (bounded_effective_timeout _ "echo hello" demo_world "/home/dev" _ _ _ _)
              _); [reflexivity | reflexivity | reflexivity | in_list |].
    right. right. reflexivity.
Defined.

(** ** Computations that only read the world *)

Lemma read_only_ret {A} (a : A) : read_only (ret a).
Proof. done. Qed.

Lemma read_only_raise {A} (e : exn) : read_only (@raise A e).
Proof. done. Qed.

Lemma read_only_get {A} (proj : World -> A) : read_only (get proj).
Proof. done. Qed.

Lemma read_only_bind {A B} (m : M A) (k : A -> M B) :
  read_only m -> (forall a, read_only (k a)) -> read_only (bind m k).
Proof.
  intros Hm Hk w. unfold bind. specialize (Hm w).
  destruct (m w) as [[a | e |] w1]; simpl in Hm; subst w1; [apply Hk | done | done].
Qed.

Lemma read_only_try {A} catches (body : M A) handler :
  read_only body -> (forall e, read_only (handler e)) ->
  read_only (try_except catches body handler).
Proof.
  intros Hb Hh w. unfold try_except. specialize (Hb w).
  destruct (body w) as [[a | e |] w1]; simpl in Hb; subst w1; [done | | done].
  destruct (catches (exn_cls e)); [apply Hh | done].
Qed.

Lemma read_only_open_r name : read_only (open_r name).
Proof.
  intros w. unfold open_r.
  destruct (lookup_file name (w_files w)) as [f |]; [| done].
  by destruct (f_readable f).
Qed.

Lemma read_only_f_read f : read_only (f_read f).
Proof. intros w. unfold f_read. by destruct (f_decoding f). Qed.

Lemma read_only_f_read_n n f : read_only (f_read_n n f).
Proof. intros w. unfold f_read_n. by destruct (f_decoding f). Qed.

Lemma read_only_f_read_bind {B} f (k : string -> M B) :
  (forall text, read_only (k text)) -> read_only (bind (f_read f) k).
Proof. intros Hk. apply read_only_bind; [apply read_only_f_read | exact Hk]. Qed.

Lemma read_only_for_in {A S} (xs : list A) (body : S -> A -> M S) (s : S) :
  (forall s x, read_only (body s x)) -> read_only (for_in xs body s).
Proof.
  intros Hb. revert s. induction xs as [|x xs IH]; intros s; simpl.
  - apply read_only_ret.
  - apply read_only_bind; [apply Hb | done].
Qed.

Lemma read_only_if {A} (c : bool) (m1 m2 : M A) :
  read_only m1 -> read_only m2 -> read_only (if c then m1 else m2).
Proof. by destruct c. Qed.

(** A handler that only builds a report leaves the world of the body. *)
Lemma try_except_world {A} catches (body : M A) (report : exn -> A) w :
  snd (try_except catches body (fun e => ret (report e)) w) = snd (body w).
Proof.
  unfold try_except. destruct (body w) as [[a | e |] w1]; [done | | done].
  by destruct (catches (exn_cls e)).
Qed.

(** ** Background launch *)

Lemma bg_names_differ timestamp command :
  bg_pid_name timestamp command <> bg_log_name timestamp command.
Proof.
  unfold bg_pid_name, bg_log_name. intros H.
  do 4 apply (inj (String.app _)) in H. discriminate H.
Qed.

(** What the background launcher does to the world, whatever the outcome: it
    starts the command line, writes the marker file and sleeps; the log is
    touched by the started process only. *)
Lemma background_world command cwd w :
  let log := bg_log_name (w_now w) command in
  let cmdline :=
    command +:+ " > " +:+ (w_output_dir w +:+ "/" +:+ log) +:+ " 2>&1 & echo $!" in
  let w' := snd (execute_background command cwd w) in
  exists added,
    w_events w' = w_events w ++ added /\
    (forall ev, ev ∈ added ->
       (exists pid, ev = EvSpawn pid cmdline) \/
       ev = EvOpenW (bg_pid_name (w_now w) command) \/
       ev = EvSleep 1) /\
    lookup_file log (w_files w') =
      lookup_file log
        match w_shell w cmdline cwd with
        | Spawned _ b => apply_writes (w_now w) (b_writes b) (w_files w)
        | SpawnFails _ => w_files w
        end.
Proof.
  intros log cmdline w'. subst w'. unfold execute_background.
  run_get time_time. run_get (path_str (bg_log_name (w_now w) command)).
  fold log. fold cmdline.
  rewrite try_except_world.
  destruct (w_shell w cmdline cwd) as [e | pid b] eqn:Hs.
  { erewrite bind_raise by (unfold create_subprocess_shell; by rewrite Hs).
    exists []. simpl. rewrite app_nil_r. split; [done |]. split; [| done].
    intros ev Hev. by apply elem_of_nil in Hev. }
  run_spawn Hs.
  destruct (b_exit b) as [d |] eqn:He.
  2:{ unfold bind at 1, communicate. world_nf. rewrite He. world_nf.
      exists [EvSpawn pid cmdline]. split; [done |]. split; [| done].
      intros ev ->%list_elem_of_singleton. left. by exists pid. }
  erewrite (bind_run (communicate _))
    by (unfold communicate; world_nf; rewrite He; reflexivity).
  world_nf.
  destruct (w_writable w) eqn:Hw.
  2:{ erewrite bind_raise by (unfold open_w; world_nf; reflexivity).
      world_nf.
      exists [EvSpawn pid cmdline]. split; [done |]. split; [| done].
      intros ev ->%list_elem_of_singleton. left. by exists pid. }
  erewrite (bind_run (open_w _)) by (apply open_w_run; reflexivity). world_nf.
  run_write.
  erewrite (bind_run (asyncio_sleep _)) by reflexivity.
  unfold asyncio_sleep. world_nf.
  match goal with
  | |- context [snd (bind ?m ?k ?W)] =>
      assert (snd (bind m k W) = W) as ->
  end.
  { apply read_only_bind; [apply read_only_get |]. intros present.
    apply read_only_bind; [| intros; apply read_only_ret].
    apply read_only_if; [| apply read_only_ret].
    apply read_only_bind; [apply read_only_open_r | intros f].
    apply read_only_bind; [apply read_only_f_read_n | intros; apply read_only_ret]. }
  world_nf.
  exists [EvSpawn pid cmdline; EvOpenW (bg_pid_name (w_now w) command); EvSleep 1].
  split; [by rewrite <- !app_assoc |]. split.
  - intros ev Hev. apply list_elem_of_In in Hev. simpl in Hev.
    destruct Hev as [<- | [<- | [<- | []]]]; [left; by exists pid | auto | auto].
  - apply lookup_store_ne. apply bg_names_differ.
Qed.

(** C9 (as amended).  A bounded invocation has one log file, created (or
    emptied) when the call is made and before the process is started; from
    then on it is only appended to.  It ends with the summary of exit code
    and completion time when the process has exited and its output is at end
    of file before the deadline, and with the timeout marker, stamped when
    the wait for the killed process returns, when the deadline elapses
    first and that wait returns.  It keeps the header alone when the process
    cannot be started, when the wait for the killed process never returns
    (nor does the call then), and when the deadline is too large for the
    clock.  A background invocation gets no log from the server: the server
    never opens the log file, whose contents are what the launched command
    line itself redirects into it, without header, summary or timeout
    marker. *)
Theorem log_lifecycle :
  (forall command cwd t w,
     w_writable w = true ->
     (forall pid b, w_shell w command cwd = Spawned pid b ->
                    safe_log_name (w_now w) ∉ (b_writes b).*1) ->
     let log := safe_log_name (w_now w) in
     let header := safe_header command cwd (VInt t) (w_ctime w (w_now w)) in
     exists outcome w' rest tail,
       execute_with_timeout command cwd (VInt t) w = (outcome, w') /\
       w_events w' = w_events w ++ EvOpenW log :: rest /\
       f_data <$> lookup_file log (w_files w') = Some (header +:+ tail) /\
       match w_shell w command cwd with
       | SpawnFails _ => outcome <> Hang /\ rest = [] /\ tail = EmptyString
       | Spawned pid b =>
           if exits_in_time t b
           then outcome <> Hang /\
                rest = [EvSpawn pid command; EvOpenA log] /\
                tail = b_stdout b +:+
                       completion_summary (b_returncode b)
                         (w_ctime w (w_now w + run_time b))
           else if deadline_first t b
           then match wait_returns b (Z.max 0 t) with
                | Some r =>
                    outcome <> Hang /\
                    rest = [EvSpawn pid command; EvKill pid; EvWait pid; EvOpenA log] /\
                    tail = timeout_marker (VInt t) (w_ctime w (w_now w + r))
                | None =>
                    outcome = Hang /\
                    rest = [EvSpawn pid command; EvKill pid; EvWait pid] /\
                    tail = EmptyString
                end
           else outcome <> Hang /\ rest = [EvSpawn pid command] /\ tail = EmptyString
       end) /\
  (forall command cwd w,
     let log := bg_log_name (w_now w) command in
     let cmdline :=
       command +:+ " > " +:+ (w_output_dir w +:+ "/" +:+ log) +:+ " 2>&1 & echo $!" in
     let w' := snd (execute_background command cwd w) in
     exists added,
       w_events w' = w_events w ++ added /\
       (EvOpenW log ∉ added) /\ (EvOpenA log ∉ added) /\
       lookup_file log (w_files w') =
         lookup_file log
           match w_shell w cmdline cwd with
           | Spawned _ b => apply_writes (w_now w) (b_writes b) (w_files w)
           | SpawnFails _ => w_files w
           end).
Proof.
  split.
  - intros command cwd t w Hw Hwr log header.
    destruct (w_shell w command cwd) as [e | pid b] eqn:Hs.
    + eexists _, _, [], EmptyString.
      split; [by apply bounded_run_spawn_failure |].
      world_nf. split; [done |]. split; [| done].
      by rewrite lookup_store_eq, str_app_nil_r.
    + specialize (Hwr pid b eq_refl).
      destruct (exits_in_time t b) eqn:Hin.
      { eexists _, _, _, _.
        split; [by apply bounded_run_success |].
        world_nf. split; [reflexivity |]. split; [| done].
        by rewrite lookup_store_eq. }
      destruct (deadline_first t b) eqn:Hfirst.
      * destruct (wait_returns b (Z.max 0 t)) as [r |] eqn:Hwait.
        { eexists _, _, _, _.
          split; [by apply (bounded_run_timeout command cwd t w pid b r) |].
          world_nf. split; [reflexivity |]. split; [| done].
          by rewrite lookup_store_eq. }
        eexists _, _, _, EmptyString.
        split; [by apply bounded_run_stuck |].
        world_nf. split; [reflexivity |]. split; [| done].
        rewrite lookup_apply_writes_other by done.
        by rewrite lookup_store_eq, str_app_nil_r.
      * assert (float_overflow t = true) as Hfl.
        { unfold exits_in_time in Hin. unfold deadline_first in Hfirst.
          destruct (float_overflow t); [done |]. simpl in *.
          destruct (b_exit b) as [d |]; [| done].
          rewrite andb_true_r in Hin. by rewrite Hin in Hfirst. }
        eexists _, _, _, EmptyString.
        split; [by apply bounded_run_overflow |].
        world_nf. split; [reflexivity |]. split; [| done].
        rewrite lookup_apply_writes_other by done.
        by rewrite lookup_store_eq, str_app_nil_r.
  - intros command cwd w log cmdline w'.
    destruct (background_world command cwd w) as (added & Hev & Hkinds & Hlog).
    exists added. split; [exact Hev |]. split; [| split; [| exact Hlog]].
    + intros Hin. destruct (Hkinds _ Hin) as [[pid H] | [H | H]]; try discriminate H.
      apply (bg_names_differ (w_now w) command). subst log. congruence.
    + intros Hin. destruct (Hkinds _ Hin) as [[pid H] | [H | H]]; discriminate H.
Qed.

Lemma log_lifecycle_witness :
  (exists outcome w',
     execute_with_timeout "echo hello" (VStr ".") (VInt 5) demo_world = (outcome, w') /\
     w_events w' =
       [EvOpenW "safe_1700000000.log"; EvSpawn 4242 "echo hello";
        EvOpenA "safe_1700000000.log"]) /\
  (exists outcome w',
     execute_with_timeout "sleep 10" (VStr ".") (VInt 1) demo_world = (outcome, w') /\
     f_data <$> lookup_file "safe_1700000000.log" (w_files w') =
       Some (safe_header "sleep 10" (VStr ".") (VInt 1) (demo_ctime 1700000000) +:+
             timeout_marker (VInt 1) (demo_ctime 1700000010))).
Proof.
  split.
  - destruct (proj1 log_lifecycle "echo hello" (VStr ".") 5 demo_world)
      as (outcome & w' & rest & tail & Hrun & Hev & _ & _ & Hrest & _).
    + reflexivity.
    + intros pid b Hs. injection Hs as _ <-. simpl. apply not_elem_of_nil.
    + exists outcome, w'. split; [exact Hrun |].
      rewrite Hev, Hrest. reflexivity.
  - destruct (proj1 log_lifecycle "sleep 10" (VStr ".") 1 demo_world)
      as (outcome & w' & rest & tail & Hrun & _ & Hlog & _ & _ & Htail).
    + reflexivity.
    + intros pid b Hs. injection Hs as _ <-. simpl. apply not_elem_of_nil.
    + exists outcome, w'. split; [exact Hrun |].
      refine (eq_trans Hlog _). rewrite Htail. reflexivity.
Defined.

(** C9 (as stated) fails for background invocations.  Launching [pytest] in
    the background in a directory without logs: the first thing the server
    does is start the command line, it never creates or appends to the log,
    and the log, written by the redirection alone, carries neither a summary
    with the exit code nor a timeout marker although the command has
    finished. *)
Lemma background_log_counterexample :
  let log := "bg_1700000000_pytest.log" in
  let w' := snd (execute_background "pytest" (VStr "/home/dev") demo_world) in
  lookup_file log (w_files demo_world) = None /\
  w_events w' =
    [EvSpawn 4244
       "pytest > /tmp/ai-terminal-outputs/bg_1700000000_pytest.log 2>&1 & echo $!";
     EvOpenW "bg_1700000000_pytest.pid"; EvSleep 1] /\
  f_data <$> lookup_file log (w_files w') = Some ("no tests ran" +:+ nl) /\
  PyStr.contains "Exit Code" ("no tests ran" +:+ nl) = false /\
  PyStr.contains "TIMEOUT" ("no tests ran" +:+ nl) = false.
Proof. vm_compute. repeat split. Qed.

(** ** Status of background commands *)

Lemma insert_desc_perm x l : insert_desc x l ≡ₚ x :: l.
Proof.
  induction l as [|y l IH]; simpl; [done |].
  destruct (f_mtime y.2 <=? f_mtime x.2); [done |].
  rewrite IH. apply Permutation_swap.
Qed.

Lemma sorted_by_mtime_desc_perm l : sorted_by_mtime_desc l ≡ₚ l.
Proof.
  induction l as [|x l IH]; simpl; [done |].
  by rewrite insert_desc_perm, IH.
Qed.

Lemma insert_desc_sorted x l :
  StronglySorted newer_or_same l -> StronglySorted newer_or_same (insert_desc x l).
Proof.
  induction l as [|y l IH]; simpl; intros Hl.
  - repeat constructor.
  - apply StronglySorted_cons in Hl as [Hy Hl].
    destruct (Z.leb_spec (f_mtime y.2) (f_mtime x.2)) as [Hle | Hlt].
    + apply StronglySorted_cons. split; [| by apply StronglySorted_cons].
      constructor; [done |].
      eapply Forall_impl; [exact Hy |]. unfold newer_or_same. intros z Hz. simpl in *. lia.
    + apply StronglySorted_cons. split; [| by apply IH].
      rewrite insert_desc_perm. constructor; [| done].
      unfold newer_or_same. lia.
Qed.

Lemma sorted_by_mtime_desc_sorted l :
  StronglySorted newer_or_same (sorted_by_mtime_desc l).
Proof.
  induction l as [|x l IH]; simpl; [constructor | by apply insert_desc_sorted].
Qed.

Lemma probe_status_run pid_file w :
  marker_ok w pid_file ->
  probe_status pid_file w = (Ret (liveness_text (liveness_of w pid_file)), w).
Proof.
  unfold marker_ok, probe_status, liveness_of.
  run_get (path_exists pid_file).
  destruct (lookup_file pid_file (w_files w)) as [f |] eqn:Hf; [| done].
  intros (Hread & Hdec & Hpid).
  erewrite (bind_run (open_r _)) by (unfold open_r; by rewrite Hf, Hread).
  erewrite (bind_run (f_read _)) by (unfold f_read; by rewrite Hdec).
  unfold int_of_str.
  destruct (py_int (PyStr.strip (file_text f))) as [pid |].
  - unfold os_kill0.
    destruct (w_kill0 w pid) eqn:Hk.
    + apply try_except_ret. erewrite bind_run by reflexivity.
      erewrite bind_run; [reflexivity |].
      replace (pid <? -2147483648) with false by lia.
      replace (2147483647 <? pid) with false by lia. simpl. by rewrite Hk.
    + erewrite try_except_caught; cycle 1.
      { erewrite bind_run by reflexivity. erewrite bind_raise; [reflexivity |].
        replace (pid <? -2147483648) with false by lia.
        replace (2147483647 <? pid) with false by lia. simpl. by rewrite Hk. }
      { reflexivity. }
      reflexivity.
    + erewrite try_except_caught; cycle 1.
      { erewrite bind_run by reflexivity. erewrite bind_raise; [reflexivity |].
        replace (pid <? -2147483648) with false by lia.
        replace (2147483647 <? pid) with false by lia. simpl. by rewrite Hk. }
      { reflexivity. }
      reflexivity.
  - erewrite try_except_caught; cycle 1.
    { erewrite bind_raise; reflexivity. }
    { reflexivity. }
    reflexivity.
Qed.

Lemma check_status_body_run show_output result log_file w :
  marker_ok w (path_stem log_file +:+ ".pid") ->
  (truthy show_output = true -> file_readable w log_file) ->
  check_status_body show_output result log_file w =
  (Ret (result +:+ status_block show_output w log_file), w).
Proof.
  intros Hm Hr. unfold check_status_body.
  erewrite bind_run by (by apply probe_status_run).
  run_get (path_str log_file).
  run_get (path_exists log_file).
  unfold status_block, recent_output_part, file_readable in *.
  destruct (lookup_file log_file (w_files w)) as [f |] eqn:Hf.
  - destruct (truthy show_output) eqn:Hshow; simpl.
    + destruct (Hr eq_refl) as [Hread Hdec].
      erewrite bind_run.
      2:{ erewrite (bind_run (open_r _)) by (by apply open_r_run).
          erewrite (bind_run (f_read _)) by (by apply f_read_run).
          reflexivity. }
      unfold ret.
      destruct (negb _); rewrite !str_app_assoc; reflexivity.
    + erewrite bind_run by reflexivity. unfold ret.
      rewrite !str_app_assoc. reflexivity.
  - rewrite andb_false_r. erewrite bind_run by reflexivity. unfold ret.
    rewrite !str_app_assoc. reflexivity.
Qed.

Lemma for_in_blocks {A} (xs : list A) (body : string -> A -> M string)
  (block : A -> string) (acc : string) (w : World) :
  (forall x acc, x ∈ xs -> body acc x w = (Ret (acc +:+ block x), w)) ->
  for_in xs body acc w = (Ret (acc +:+ concat_blocks block xs), w).
Proof.
  revert acc. induction xs as [|x xs IH]; intros acc Hb; simpl.
  - by rewrite str_app_nil_r.
  - erewrite bind_run by (apply Hb; left).
    rewrite IH by (intros; apply Hb; by right).
    by rewrite str_app_assoc.
Qed.

Lemma liveness_unknown_iff w pid_file :
  liveness_of w pid_file = Unknown <-> lookup_file pid_file (w_files w) = None.
Proof.
  unfold liveness_of. destruct (lookup_file pid_file (w_files w)) as [f |]; [| done].
  destruct (py_int _) as [pid |]; [| done]. by destruct (w_kill0 w pid).
Qed.

Lemma liveness_running_iff w pid_file :
  liveness_of w pid_file = Running <->
  exists f pid,
    lookup_file pid_file (w_files w) = Some f /\
    py_int (PyStr.strip (file_text f)) = Some pid /\
    w_kill0 w pid = Alive.
Proof.
  unfold liveness_of. destruct (lookup_file pid_file (w_files w)) as [f |].
  - destruct (py_int _) as [pid |] eqn:Hp.
    + destruct (w_kill0 w pid) eqn:Hk; split; try done.
      * intros _. by exists f, pid.
      * intros (f' & pid' & [= <-] & Hp' & Hk'). rewrite Hp in Hp'. congruence.
      * intros (f' & pid' & [= <-] & Hp' & Hk'). rewrite Hp in Hp'. congruence.
    + split; [done |]. intros (f' & pid' & [= <-] & Hp' & _). congruence.
  - split; [done |]. by intros (f' & pid' & ? & _).
Qed.

Lemma liveness_completed_iff w pid_file :
  liveness_of w pid_file = Completed <->
  exists f,
    lookup_file pid_file (w_files w) = Some f /\
    match py_int (PyStr.strip (file_text f)) with
    | None => True
    | Some pid => w_kill0 w pid = NoSuchProcess \/ w_kill0 w pid = NotPermitted
    end.
Proof.
  unfold liveness_of. destruct (lookup_file pid_file (w_files w)) as [f |].
  - destruct (py_int _) as [pid |] eqn:Hp.
    + destruct (w_kill0 w pid) eqn:Hk; split; try done.
      * intros (f' & [= <-] & H). rewrite Hp in H. destruct H; congruence.
      * intros _. exists f. rewrite Hp. split; [done |]. by left.
      * intros _. exists f. rewrite Hp. split; [done |]. by right.
    + split; [| done]. intros _. exists f. by rewrite Hp.
  - split; [done |]. by intros (f' & ? & _).
Qed.

(** C6 (as amended).  [check_status] reports on at most 5 background logs,
    the most recently modified ones, newest first.  As long as the marker
    files of these can be read and hold numbers that fit a C int (and the
    logs can be read when output is shown), each one is reported running when
    its marker holds an integer for which the probe succeeds, completed when
    the probe fails (no such process, or not permitted) and also when the
    marker does not hold an integer, and unknown exactly when the marker file
    is missing. *)
Theorem check_status_lists_and_classifies (args : gmap string pyval) (w : World) :
  let show_output := default (VBool true) (args !! "show_output") in
  let found := List.filter (fun nf => glob_match "bg_" ".log" (fst nf)) (w_files w) in
  let listed := listed_background_logs w in
  (forall x, x ∈ listed ->
     marker_ok w (path_stem x.1 +:+ ".pid") /\
     (truthy show_output = true -> file_readable w x.1)) ->
  (length listed <= 5)%nat /\
  StronglySorted newer_or_same listed /\
  (exists older,
     listed ++ older ≡ₚ found /\
     forall x y, x ∈ listed -> y ∈ older -> newer_or_same x y) /\
  check_status args w =
    (Ret (text_result
            match listed with
            | [] => "No background commands found"
            | _ => "=== Background Command Status ===" +:+ nl +:+
                   concat_blocks (status_block show_output w) (listed.*1)
            end), w) /\
  (forall pid_file,
     (liveness_of w pid_file = Unknown <-> lookup_file pid_file (w_files w) = None) /\
     (liveness_of w pid_file = Running <->
      exists f pid,
        lookup_file pid_file (w_files w) = Some f /\
        py_int (PyStr.strip (file_text f)) = Some pid /\
        w_kill0 w pid = Alive) /\
     (liveness_of w pid_file = Completed <->
      exists f,
        lookup_file pid_file (w_files w) = Some f /\
        match py_int (PyStr.strip (file_text f)) with
        | None => True
        | Some pid => w_kill0 w pid = NoSuchProcess \/ w_kill0 w pid = NotPermitted
        end)).
Proof.
  intros show_output found listed Hok.
  assert (StronglySorted newer_or_same (sorted_by_mtime_desc found)) as Hsorted
    by apply sorted_by_mtime_desc_sorted.
  rewrite <- (take_drop 5 (sorted_by_mtime_desc found)) in Hsorted.
  split; [| split; [| split; [| split]]].
  - unfold listed, listed_background_logs. rewrite length_take. lia.
  - by apply StronglySorted_app_1_l in Hsorted.
  - exists (drop 5 (sorted_by_mtime_desc found)). split.
    + unfold listed, listed_background_logs. fold found.
      rewrite take_drop. apply sorted_by_mtime_desc_perm.
    + intros x y Hx Hy. by eapply StronglySorted_app_1_elem_of.
  - unfold check_status. fold show_output.
    run_get (glob "bg_" ".log"). fold found.
    unfold listed, listed_background_logs in *. fold found in Hok |- *.
    destruct (sorted_by_mtime_desc found) as [|x rest]; [reflexivity |].
    set (l := x :: rest) in *.
    change (fst <$> l) with (x.1 :: (fst <$> rest)).
    change (take 5 l) with (x :: take 4 rest) at 2.
    cbv iota zeta.
    change (x.1 :: (fst <$> rest)) with (fst <$> l).
    erewrite bind_run.
    2:{ apply (for_in_blocks _ _ (status_block show_output w)).
        intros name acc Hname.
        rewrite <- fmap_take in Hname.
        apply list_elem_of_fmap in Hname as (y & -> & Hy).
        destruct (Hok y Hy) as [Hm Hr].
        by apply check_status_body_run. }
    rewrite <- fmap_take. reflexivity.
  - intros pid_file.
    split; [apply liveness_unknown_iff |].
    split; [apply liveness_running_iff | apply liveness_completed_iff].
Qed.

Lemma check_status_lists_and_classifies_witness :
  check_status ∅ status_world =
    (Ret (text_result
            ("=== Background Command Status ===" +:+ nl +:+
             concat_blocks (status_block (VBool true) status_world)
               ["bg_1700000050_sleep.log"; "bg_1700000020_pull.log";
                "bg_1700000000_make.log"])), status_world) /\
  liveness_of status_world "bg_1700000050_sleep.pid" = Running /\
  liveness_of status_world "bg_1700000000_make.pid" = Completed /\
  liveness_of status_world "bg_1700000020_pull.pid" = Unknown.
Proof.
  destruct (check_status_lists_and_classifies ∅ status_world) as (_ & _ & _ & Hrun & _).
  - intros x Hx. apply list_elem_of_In in Hx. vm_compute in Hx.
    destruct Hx as [<- | [<- | [<- | []]]]; vm_compute; repeat split; discriminate.
  - split; [exact Hrun |]. vm_compute. repeat split.
Defined.

(** C6 (as stated) fails: a marker file whose contents cannot be resolved to
    a process, here an empty one, is reported as completed, not as unknown. *)
Lemma unresolvable_marker_counterexample :
  py_int EmptyString = None /\
  check_status ∅ empty_marker_world =
    (Ret (text_result
            ("=== Background Command Status ===" +:+ nl +:+
             nl +:+ "Command: bg_1700000000_sleep5" +:+ nl +:+
             "Status: ✅ Completed" +:+ nl +:+
             "Log: /tmp/ai-terminal-outputs/bg_1700000000_sleep5.log" +:+ nl +:+
             rule_dash +:+ nl)), empty_marker_world).
Proof. split; vm_compute; reflexivity. Qed.

(** ** Recent terminal activity *)

(** C7, at the failing input.  With [lines] set to 0 a log of three lines is
    announced as cut to its last 0 lines and then shown in full. *)
Theorem get_context_zero_lines :
  get_context (<["lines" := VInt 0]> ∅) three_line_world =
    (Ret (text_result
            ("=== Recent Terminal Activity ===" +:+ nl +:+
             nl +:+ "📄 safe_1700000000.log" +:+ nl +:+
             rule_dash +:+ nl +:+
             "... (showing last 0 lines)" +:+ nl +:+
             "one" +:+ nl +:+ "two" +:+ nl +:+ "three" +:+
             nl +:+ rule_eq +:+ nl)), three_line_world).
Proof. vm_compute. reflexivity. Qed.

Example get_context_two_lines :
  get_context (<["lines" := VInt 2]> ∅) three_line_world =
    (Ret (text_result
            ("=== Recent Terminal Activity ===" +:+ nl +:+
             nl +:+ "📄 safe_1700000000.log" +:+ nl +:+
             rule_dash +:+ nl +:+
             "... (showing last 2 lines)" +:+ nl +:+
             "two" +:+ nl +:+ "three" +:+
             nl +:+ rule_eq +:+ nl)), three_line_world).
Proof. vm_compute. reflexivity. Qed.

Example get_context_default_lines :
  get_context ∅ three_line_world =
    (Ret (text_result
            ("=== Recent Terminal Activity ===" +:+ nl +:+
             nl +:+ "📄 safe_1700000000.log" +:+ nl +:+
             rule_dash +:+ nl +:+
             "one" +:+ nl +:+ "two" +:+ nl +:+ "three" +:+ nl +:+
             nl +:+ rule_eq +:+ nl)), three_line_world).
Proof. vm_compute. reflexivity. Qed.

(** ** Failures at the operation boundary *)

(** C8, at the failing inputs.  [check_status] raises when a marker file
    cannot be read, and [get_context] raises when a log cannot be read: the
    exception leaves the operation instead of becoming a report. *)
Theorem unreadable_file_raises :
  check_status ∅ unreadable_marker_world =
    (Raise (Exn PermissionError
              "[Errno 13] Permission denied: '/tmp/ai-terminal-outputs/bg_1700000000_sleep5.pid'"),
     unreadable_marker_world) /\
  get_context ∅ unreadable_log_world =
    (Raise (Exn PermissionError
              "[Errno 13] Permission denied: '/tmp/ai-terminal-outputs/safe_1700000000.log'"),
     unreadable_log_world) /\
  handle_call_tool "check_command_status" ∅ unreadable_marker_world =
    check_status ∅ unreadable_marker_world.
Proof. repeat split; vm_compute; reflexivity. Qed.

(** The two executors turn every exception into a report. *)
Lemma try_except_any_no_raise {A} (body : M A) (report : exn -> A) w e w' :
  try_except any_exception body (fun e => ret (report e)) w <> (Raise e, w').
Proof.
  unfold try_except. destruct (body w) as [[a | e0 |] w1]; simpl; discriminate.
Qed.

Lemma execute_with_timeout_never_raises command cwd timeout w e w' :
  execute_with_timeout command cwd timeout w <> (Raise e, w').
Proof. apply try_except_any_no_raise. Qed.

Lemma execute_background_never_raises command cwd w e w' :
  execute_background command cwd w <> (Raise e, w').
Proof.
  unfold execute_background.
  run_get time_time. run_get (path_str (bg_log_name (w_now w) command)).
  apply try_except_any_no_raise.
Qed.

Lemma execute_safe_command_never_raises (args : gmap string pyval) command w home e w' :
  args !! "command" = Some (VStr command) ->
  w_getcwd w = Some home ->
  execute_safe_command args w <> (Raise e, w').
Proof.
  intros Hc Hh. rewrite (execute_safe_command_unfold args command w home Hc Hh).
  destruct (_ || _);
    [apply execute_background_never_raises | apply execute_with_timeout_never_raises].
Qed.

(** A log directory that refuses writes is reported by the bounded executor. *)
Lemma bounded_write_failure_reported command cwd timeout w :
  w_writable w = false ->
  execute_with_timeout command cwd timeout w =
  (Ret (text_result (error_text (permission_denied w (safe_log_name (w_now w))))), w).
Proof.
  intros Hw. unfold execute_with_timeout.
  erewrite try_except_caught; [reflexivity | | reflexivity].
  run_get time_time. erewrite bind_raise; [reflexivity |].
  unfold open_w. by rewrite Hw.
Qed.

(** The two queries leave the world as it is. *)
Lemma probe_status_read_only pid_file : read_only (probe_status pid_file).
Proof.
  unfold probe_status.
  apply read_only_bind; [apply read_only_get |]. intros present.
  apply read_only_if; [| apply read_only_ret].
  apply read_only_bind; [apply read_only_open_r |]. intros f.
  apply read_only_f_read_bind. intros text.
  apply read_only_try; [| intros; apply read_only_ret].
  apply read_only_bind.
  { unfold int_of_str. destruct (py_int _); [apply read_only_ret | apply read_only_raise]. }
  intros n. apply read_only_bind; [| intros; apply read_only_ret].
  intros w. unfold os_kill0. destruct (_ || _); [done |]. by destruct (w_kill0 w n).
Qed.

Lemma check_status_read_only (args : gmap string pyval) : read_only (check_status args).
Proof.
  unfold check_status.
  apply read_only_bind; [apply read_only_get |]. intros found.
  destruct (fst <$> sorted_by_mtime_desc found); [apply read_only_ret |].
  apply read_only_bind; [| intros; apply read_only_ret].
  apply read_only_for_in. intros result log_file. unfold check_status_body.
  apply read_only_bind; [apply probe_status_read_only |]. intros status.
  apply read_only_bind; [apply read_only_get |]. intros log_path.
  apply read_only_bind; [apply read_only_get |]. intros present.
  apply read_only_bind; [| intros; apply read_only_ret].
  apply read_only_if; [| apply read_only_ret].
  apply read_only_bind; [apply read_only_open_r | intros f].
  apply read_only_f_read_bind. intros text. apply read_only_ret.
Qed.

Lemma get_context_read_only (args : gmap string pyval) : read_only (get_context args).
Proof.
  unfold get_context.
  apply read_only_bind; [apply read_only_get |]. intros found.
  apply read_only_bind; [| intros; apply read_only_ret].
  apply read_only_for_in. intros context log_file. unfold get_context_body.
  apply read_only_bind; [apply read_only_get |]. intros present.
  apply read_only_if; [| apply read_only_ret].
  apply read_only_bind; [apply read_only_open_r |]. intros f.
  apply read_only_f_read_bind. intros content.
  apply read_only_bind; [| intros; apply read_only_ret].
  unfold int_operand.
  destruct (default (VInt 50) (args !! "lines"));
    first [apply read_only_ret | apply read_only_raise].
Qed.

(** Slices of the lines of a log. *)
Lemma slice_from_last {A} (n : Z) (l : list A) :
  0 < n < Z.of_nat (length l) ->
  slice_from (- n) l = drop (length l - Z.to_nat n) l /\
  length (slice_from (- n) l) = Z.to_nat n.
Proof.
  intros Hn. unfold slice_from.
  replace (- n <? 0) with true by lia.
  replace (Z.to_nat (Z.max 0 (- n + Z.of_nat (length l))))
    with (length l - Z.to_nat n)%nat by lia.
  split; [done |]. rewrite length_drop. lia.
Qed.

Lemma slice_from_zero {A} (l : list A) : slice_from (- 0) l = l.
Proof.
  unfold slice_from. replace (- 0 <? 0) with false by lia.
  by replace (Z.to_nat (Z.min (- 0) (Z.of_nat (length l)))) with 0%nat by lia.
Qed.

(** What [get_context] adds for one readable log and an integer [lines]. *)
Lemma get_context_body_run n context log_file f w :
  lookup_file log_file (w_files w) = Some f ->
  f_readable f = true -> f_decoding f = Decodes ->
  let content_lines := splitlines (file_text f) in
  get_context_body (VInt n) context log_file w =
  (Ret (context +:+ nl +:+ "📄 " +:+ log_file +:+ nl +:+ rule_dash +:+ nl +:+
        (if Z.of_nat (length content_lines) >? n
         then "... (showing last " +:+ pretty n +:+ " lines)" +:+ nl +:+
              PyStr.join nl (slice_from (- n) content_lines)
         else file_text f) +:+
        nl +:+ rule_eq +:+ nl), w).
Proof.
  intros Hf Hr Hdec content_lines. unfold get_context_body.
  run_get (path_exists log_file). rewrite Hf.
  erewrite (bind_run (open_r _)) by (by apply open_r_run).
  erewrite (bind_run (f_read _)) by (by apply f_read_run).
  erewrite bind_run by reflexivity. unfold ret. fold content_lines.
  destruct (Z.of_nat (length content_lines) >? n); simpl;
    rewrite !str_app_assoc; reflexivity.
Qed.

(** ** The classifier on examples *)

Example classify_pytest : classify_command "PyTest -q" = "test".
Proof. reflexivity. Qed.
Example classify_make_test : classify_command "make test" = "test".
Proof. reflexivity. Qed.
Example classify_git_pull : classify_command "git pull" = "long".
Proof. reflexivity. Qed.
Example classify_argument_keyword : classify_command "cat latest.txt" = "test".
Proof. reflexivity. Qed.
Example classify_six_tokens : classify_command "ls -l -a -h -t /" = "complex".
Proof. reflexivity. Qed.
Example classify_five_tokens : classify_command "ls -l -a -h  -t " = "quick".
Proof. reflexivity. Qed.

(** * Further properties of the server *)

(** ** More on strings *)

Lemma isspace_lower_char c : PyStr.isspace (PyStr.lower_char c) = PyStr.isspace c.
Proof. by destruct c as [[] [] [] [] [] [] [] []]. Qed.

Lemma lower_char_idem c : PyStr.lower_char (PyStr.lower_char c) = PyStr.lower_char c.
Proof. by destruct c as [[] [] [] [] [] [] [] []]. Qed.

Lemma lower_idem s : PyStr.lower (PyStr.lower s) = PyStr.lower s.
Proof. induction s as [|c s IH]; simpl; [done | by rewrite lower_char_idem, IH]. Qed.

Lemma token_count_same_case (a b : string) :
  PyStr.lower a = PyStr.lower b ->
  forall fresh, token_count_from fresh a = token_count_from fresh b.
Proof.
  revert b. induction a as [|x a IH]; intros [|y b] H fresh; simpl in *; try done.
  injection H as Hc Hs.
  assert (PyStr.isspace x = PyStr.isspace y) as ->.
  { by rewrite <- (isspace_lower_char x), Hc, isspace_lower_char. }
  by rewrite (IH b Hs).
Qed.

Lemma str_filter_length f s : (String.length (PyStr.filter f s) <= String.length s)%nat.
Proof.
  induction s as [|c s IH]; simpl; [done |].
  destruct (f c); simpl; lia.
Qed.

Lemma char_in_filter ch f s :
  PyStr.char_in ch (PyStr.filter f s) = true -> f ch = true /\ PyStr.char_in ch s = true.
Proof.
  induction s as [|c s IH]; simpl; [done |].
  destruct (f c) eqn:Hf; simpl.
  - intros [Heq | Hin]%orb_true_iff.
    + apply Ascii.eqb_eq in Heq as ->. split; [done |]. by rewrite Ascii.eqb_refl.
    + destruct (IH Hin) as [? ->]. by rewrite orb_true_r.
  - intros Hin. destruct (IH Hin) as [? ->]. by rewrite orb_true_r.
Qed.

Lemma str_filter_filter f s : PyStr.filter f (PyStr.filter f s) = PyStr.filter f s.
Proof.
  induction s as [|c s IH]; simpl; [done |].
  destruct (f c) eqn:Hf; simpl; [by rewrite Hf, IH | done].
Qed.

(** ** The classifier and letter case *)

(** X1.  The classification does not depend on letter case: two commands that
    agree once lowercased fall in the same category, and lowercasing a
    command does not change its category. *)
Theorem classify_command_ignores_case :
  (forall a b, PyStr.lower a = PyStr.lower b -> classify_command a = classify_command b) /\
  (forall a, classify_command (PyStr.lower a) = classify_command a).
Proof.
  assert (forall a b, PyStr.lower a = PyStr.lower b ->
                      classify_command a = classify_command b) as H.
  { intros a b Hab. unfold classify_command. rewrite Hab, !split_length.
    unfold token_count. by rewrite (token_count_same_case a b Hab). }
  split; [exact H |]. intros a. apply H, lower_idem.
Qed.

Lemma classify_command_ignores_case_witness :
  classify_command "NPM Install" = classify_command "npm install".
Proof. apply (proj1 classify_command_ignores_case). reflexivity. Defined.

(** ** File names of background runs *)

Lemma safe_char_not_special ch :
  PyStr.isalnum ch || PyStr.char_in ch "_-" = true ->
  ch <> "/"%char /\ ch <> "."%char /\ PyStr.isspace ch = false.
Proof.
  destruct ch as [[] [] [] [] [] [] [] []]; intros H; try discriminate H;
    repeat split; discriminate.
Qed.

(** X2.  The name derived from a command for its background files has at
    most 20 characters, all of them alphanumeric, [_] or [-]: it holds no
    path separator, no dot and no white space.  Deriving a name from a name
    gives the name back, and only the first 20 characters of the command
    count, so that commands agreeing on them share their file names within
    one second. *)
Theorem safe_name_is_safe (command : string) :
  (String.length (safe_name command) <= 20)%nat /\
  (forall ch, PyStr.char_in ch (safe_name command) = true ->
     PyStr.isalnum ch || PyStr.char_in ch "_-" = true /\
     ch <> "/"%char /\ ch <> "."%char /\ PyStr.isspace ch = false) /\
  safe_name (safe_name command) = safe_name command /\
  (forall other timestamp,
     PyStr.take 20 command = PyStr.take 20 other ->
     bg_log_name timestamp command = bg_log_name timestamp other /\
     bg_pid_name timestamp command = bg_pid_name timestamp other).
Proof.
  assert (String.length (safe_name command) <= 20)%nat as Hlen.
  { unfold safe_name. etrans; [apply str_filter_length |]. rewrite str_take_length. lia. }
  split; [exact Hlen |]. split; [| split].
  - intros ch Hin. apply char_in_filter in Hin as [Hf _].
    split; [exact Hf | by apply safe_char_not_special].
  - unfold safe_name at 1. rewrite (str_take_all 20 (safe_name command) Hlen).
    unfold safe_name. apply str_filter_filter.
  - intros other timestamp Heq. unfold bg_log_name, bg_pid_name, safe_name.
    by rewrite Heq.
Qed.

Lemma safe_name_is_safe_witness :
  safe_name "npm run build:prod --watch" = "npmrunbuildprod-" /\
  "p"%char <> "/"%char /\
  bg_log_name 7 "npm run build:prod --watch" = bg_log_name 7 "npm run build:prod --silent".
Proof.
  split; [reflexivity |].
  destruct (safe_name_is_safe "npm run build:prod --watch") as (_ & Hch & _ & H).
  split.
  - apply (Hch "p"%char). reflexivity.
  - apply (H "npm run build:prod --silent" 7). reflexivity.
Defined.

(** ** The readers on an empty store *)

Lemma filter_nothing {A} (f : A -> bool) (l : list A) :
  (forall x, x ∈ l -> f x = false) -> List.filter f l = [].
Proof.
  induction l as [|x l IH]; intros H; simpl; [done |].
  rewrite (H x) by left. apply IH. intros y Hy. apply H. by right.
Qed.

(** X3.  Without a file named [bg_*.log] in the output directory
    [check_status] answers that there are no background commands, whatever
    else the directory holds; without a file named [*.log] [get_context]
    answers with its heading alone, also when [lines] is not a number.
    Neither changes anything. *)
Theorem readers_without_logs (args : gmap string pyval) (w : World) :
  ((forall nf, nf ∈ w_files w -> glob_match "bg_" ".log" nf.1 = false) ->
   check_status args w = (Ret (text_result "No background commands found"), w)) /\
  ((forall nf, nf ∈ w_files w -> glob_match EmptyString ".log" nf.1 = false) ->
   get_context args w =
     (Ret (text_result ("=== Recent Terminal Activity ===" +:+ nl)), w)).
Proof.
  split; intros Hnone.
  - unfold check_status. run_get (glob "bg_" ".log").
    by rewrite (filter_nothing _ _ Hnone).
  - unfold get_context. run_get (glob EmptyString ".log").
    by rewrite (filter_nothing _ _ Hnone).
Qed.

Lemma readers_without_logs_witness :
  check_status ∅ three_line_world =
    (Ret (text_result "No background commands found"), three_line_world) /\
  get_context (<["lines" := VStr "many"]> ∅) demo_world =
    (Ret (text_result ("=== Recent Terminal Activity ===" +:+ nl)), demo_world).
Proof.
  split.
  - apply (proj1 (readers_without_logs ∅ three_line_world)).
    intros nf Hnf. apply list_elem_of_In in Hnf. simpl in Hnf.
    destruct Hnf as [<- | []]. reflexivity.
  - apply (proj2 (readers_without_logs _ demo_world)).
    intros nf Hnf. by apply elem_of_nil in Hnf.
Defined.

(** ** Malformed execute calls *)

(** X4.  [execute_safe_command] raises in exactly three situations, before
    anything is written or started: [KeyError] when [command] is missing,
    [FileNotFoundError] when the current directory of the server is gone
    (also when the call names its own [cwd], since the default is computed
    first), and [AttributeError] when [command] is not a string.  With a
    string command and a current directory it never raises. *)
Theorem execute_safe_command_errors (args : gmap string pyval) (w : World) :
  (args !! "command" = None ->
   execute_safe_command args w = (Raise (Exn KeyError "'command'"), w)) /\
  (is_Some (args !! "command") -> w_getcwd w = None ->
   execute_safe_command args w =
     (Raise (Exn FileNotFoundError "[Errno 2] No such file or directory"), w)) /\
  (forall v, args !! "command" = Some v -> (forall s, v <> VStr s) ->
     is_Some (w_getcwd w) ->
     exists message, execute_safe_command args w = (Raise (Exn AttributeError message), w)) /\
  (forall command, args !! "command" = Some (VStr command) ->
     is_Some (w_getcwd w) ->
     forall e w', execute_safe_command args w <> (Raise e, w')).
Proof.
  split; [| split; [| split]].
  - intros Hc. unfold execute_safe_command. by rewrite Hc.
  - intros [v Hc] Hcwd. unfold execute_safe_command. rewrite Hc.
    apply bind_raise. unfold os_getcwd. by rewrite Hcwd.
  - intros v Hc Hv [home Hcwd]. unfold execute_safe_command. rewrite Hc.
    erewrite bind_run by (unfold os_getcwd; by rewrite Hcwd).
    destruct v as [| | | s]; try (by eexists). by destruct (Hv s).
  - intros command Hc [home Hcwd] e w'.
    by apply (execute_safe_command_never_raises args command w home).
Qed.

Lemma execute_safe_command_errors_witness :
  execute_safe_command ∅ demo_world = (Raise (Exn KeyError "'command'"), demo_world) /\
  execute_safe_command
    (<["command" := VStr "echo hello"]> (<["cwd" := VStr "/tmp"]> ∅)) homeless_world =
    (Raise (Exn FileNotFoundError "[Errno 2] No such file or directory"), homeless_world) /\
  (exists message,
     execute_safe_command (<["command" := VInt 7]> ∅) demo_world =
       (Raise (Exn AttributeError message), demo_world)) /\
  (forall e w',
     execute_safe_command (<["command" := VStr "echo hello"]> ∅) demo_world <>
       (Raise e, w')).
Proof.
  destruct (execute_safe_command_errors ∅ demo_world) as (H1 & _).
  destruct (execute_safe_command_errors (<["command" := VInt 7]> ∅) demo_world)
    as (_ & _ & H3 & _).
  destruct (execute_safe_command_errors (<["command" := VStr "echo hello"]> ∅) demo_world)
    as (_ & _ & _ & H4).
  destruct (execute_safe_command_errors
              (<["command" := VStr "echo hello"]> (<["cwd" := VStr "/tmp"]> ∅))
              homeless_world) as (_ & H2 & _).
  split; [apply H1; reflexivity |].
  split; [apply H2; [by eexists | reflexivity] |]. split.
  - apply (H3 (VInt 7)); [reflexivity | discriminate | by eexists].
  - apply (H4 "echo hello"); [reflexivity | by eexists].
Defined.

(** ** How the readers can fail *)

(** Opening a file that is there and reading it whole: both succeed, or one
    of them raises. *)
Lemma read_file_cases name f w :
  lookup_file name (w_files w) = Some f ->
  (open_r name w = (Ret f, w) /\ f_read f w = (Ret (file_text f), w)) \/
  exists e,
    read_failure w e /\
    (open_r name w = (Raise e, w) \/
     (open_r name w = (Ret f, w) /\ f_read f w = (Raise e, w))).
Proof.
  intros Hf. unfold open_r, f_read. rewrite Hf.
  destruct (f_readable f) eqn:Hr.
  2:{ right. eexists. split; [| by left].
      left. split; [done |]. by exists name, f. }
  destruct (f_decoding f) as [| reason | reason] eqn:Hd; [by left | |];
    right; eexists; (split; [| by right]);
    right; (split; [done |]); exists name, f; (split; [done |]); by rewrite Hd.
Qed.

Lemma probe_status_outcome pid_file w :
  exists o, probe_status pid_file w = (o, w) /\
            returns_or_raises (check_status_failure w) o.
Proof.
  unfold probe_status. run_get (path_exists pid_file).
  destruct (lookup_file pid_file (w_files w)) as [f |] eqn:Hf; [| by eexists].
  destruct (read_file_cases pid_file f w Hf)
    as [[Hopen Hread] | (e & Hcause & [Hopen | [Hopen Hread]])].
  2:{ exists (Raise e). split; [by apply bind_raise | by left]. }
  2:{ exists (Raise e). split; [| by left].
      erewrite bind_run by exact Hopen. by apply bind_raise. }
  erewrite bind_run by exact Hopen. erewrite bind_run by exact Hread.
  unfold int_of_str.
  destruct (py_int (PyStr.strip (file_text f))) as [pid |] eqn:Hp.
  2:{ exists (Ret "✅ Completed"). split; [| exact I].
      erewrite try_except_caught; cycle 1.
      { erewrite bind_raise; reflexivity. }
      { reflexivity. }
      reflexivity. }
  destruct ((pid <? -2147483648) || (2147483647 <? pid)) eqn:Hrange.
  { exists (Raise (Exn OverflowError (pid_overflow pid))). split.
    - unfold try_except. erewrite bind_run by reflexivity.
      erewrite bind_raise by (unfold os_kill0; by rewrite Hrange). reflexivity.
    - right. split; [done |]. exists pid_file, f, pid. repeat split; [done.. |]. lia. }
  destruct (w_kill0 w pid) eqn:Hk.
  - exists (Ret "🔄 Running"). split; [| exact I].
    apply try_except_ret. erewrite bind_run by reflexivity.
    erewrite bind_run; [reflexivity |]. unfold os_kill0. by rewrite Hrange, Hk.
  - exists (Ret "✅ Completed"). split; [| exact I].
    erewrite try_except_caught; cycle 1.
    { erewrite bind_run by reflexivity. erewrite bind_raise; [reflexivity |].
      unfold os_kill0. by rewrite Hrange, Hk. }
    { reflexivity. }
    reflexivity.
  - exists (Ret "✅ Completed"). split; [| exact I].
    erewrite try_except_caught; cycle 1.
    { erewrite bind_run by reflexivity. erewrite bind_raise; [reflexivity |].
      unfold os_kill0. by rewrite Hrange, Hk. }
    { reflexivity. }
    reflexivity.
Qed.

Lemma check_status_body_outcome show_output result log_file w :
  exists o, check_status_body show_output result log_file w = (o, w) /\
            returns_or_raises (check_status_failure w) o.
Proof.
  unfold check_status_body.
  destruct (probe_status_outcome (path_stem log_file +:+ ".pid") w)
    as ([status | e |] & Hrun & Hok); [| | done].
  2:{ exists (Raise e). split; [by apply bind_raise | done]. }
  erewrite bind_run by exact Hrun.
  run_get (path_str log_file). run_get (path_exists log_file).
  destruct (lookup_file log_file (w_files w)) as [f |] eqn:Hf.
  2:{ rewrite andb_false_r. erewrite bind_run by reflexivity. by eexists. }
  destruct (truthy show_output); simpl.
  2:{ erewrite bind_run by reflexivity. by eexists. }
  destruct (read_file_cases log_file f w Hf)
    as [[Hopen Hread] | (e & Hcause & [Hopen | [Hopen Hread]])].
  - erewrite bind_run.
    2:{ erewrite bind_run by exact Hopen. erewrite bind_run by exact Hread.
        reflexivity. }
    by eexists.
  - exists (Raise e). split; [| by left].
    apply bind_raise. by apply bind_raise.
  - exists (Raise e). split; [| by left].
    apply bind_raise. erewrite bind_run by exact Hopen. by apply bind_raise.
Qed.

Lemma for_in_outcome {A S} (P : exn -> Prop) (xs : list A) (body : S -> A -> M S)
  (s : S) (w : World) :
  (forall s x, exists o, body s x w = (o, w) /\ returns_or_raises P o) ->
  exists o, for_in xs body s w = (o, w) /\ returns_or_raises P o.
Proof.
  intros Hb. revert s. induction xs as [|x xs IH]; intros s; simpl.
  - by exists (Ret s).
  - destruct (Hb s x) as ([s' | e |] & Hrun & Hok); [| | done].
    + erewrite bind_run by exact Hrun. apply IH.
    + exists (Raise e). split; [by apply bind_raise | done].
Qed.

Lemma check_status_outcome (args : gmap string pyval) w :
  exists o, check_status args w = (o, w) /\
            returns_or_raises (check_status_failure w) o.
Proof.
  unfold check_status. run_get (glob "bg_" ".log").
  destruct (fst <$> sorted_by_mtime_desc _) as [|name names]; [by eexists |].
  destruct (for_in_outcome (check_status_failure w) (take 5 (name :: names))
              (check_status_body (default (VBool true) (args !! "show_output")))
              ("=== Background Command Status ===" +:+ nl) w)
    as ([result | e |] & Hrun & Hok); [| | | done].
  - intros s x. apply check_status_body_outcome.
  - erewrite bind_run by exact Hrun. by eexists.
  - exists (Raise e). split; [by apply bind_raise | done].
Qed.

Lemma get_context_body_outcome (args : gmap string pyval) context log_file w :
  exists o, get_context_body (default (VInt 50) (args !! "lines")) context log_file w = (o, w) /\
            returns_or_raises (get_context_failure args w) o.
Proof.
  unfold get_context_body. run_get (path_exists log_file).
  destruct (lookup_file log_file (w_files w)) as [f |] eqn:Hf; [| by eexists].
  destruct (read_file_cases log_file f w Hf)
    as [[Hopen Hread] | (e & Hcause & [Hopen | [Hopen Hread]])].
  2:{ exists (Raise e). split; [by apply bind_raise | by left]. }
  2:{ exists (Raise e). split; [| by left].
      erewrite bind_run by exact Hopen. by apply bind_raise. }
  erewrite bind_run by exact Hopen. erewrite bind_run by exact Hread.
  destruct (default (VInt 50) (args !! "lines")) as [| flag | n | s] eqn:Hl.
  - eexists. split; [by apply bind_raise |]. right. by rewrite Hl.
  - erewrite bind_run by reflexivity. by eexists.
  - erewrite bind_run by reflexivity. by eexists.
  - eexists. split; [by apply bind_raise |]. right. by rewrite Hl.
Qed.

Lemma get_context_outcome (args : gmap string pyval) w :
  exists o, get_context args w = (o, w) /\
            returns_or_raises (get_context_failure args w) o.
Proof.
  unfold get_context. run_get (glob EmptyString ".log").
  destruct (for_in_outcome (get_context_failure args w)
              (take 3 (fst <$> sorted_by_mtime_desc
                         (List.filter (fun nf => glob_match EmptyString ".log" nf.1)
                            (w_files w))))
              (get_context_body (default (VInt 50) (args !! "lines")))
              ("=== Recent Terminal Activity ===" +:+ nl) w)
    as ([context | e |] & Hrun & Hok); [| | | done].
  - intros s x. apply get_context_body_outcome.
  - erewrite bind_run by exact Hrun. by eexists.
  - exists (Raise e). split; [by apply bind_raise | done].
Qed.


Example check_status_huge_pid :
  check_status ∅ huge_pid_world =
    (Raise (Exn OverflowError "signed integer is greater than maximum"), huge_pid_world).
Proof. vm_compute. reflexivity. Qed.

(** ** Dispatch of tool calls *)

Lemma execute_safe_command_raise_class (args : gmap string pyval) w e w' :
  execute_safe_command args w = (Raise e, w') ->
  exn_cls e = KeyError \/ exn_cls e = FileNotFoundError \/ exn_cls e = AttributeError.
Proof.
  unfold execute_safe_command.
  destruct (args !! "command") as [v |] eqn:Hc.
  2:{ intros [= <- _]. by left. }
  destruct (w_getcwd w) as [home |] eqn:Hcwd.
  2:{ erewrite bind_raise by (unfold os_getcwd; by rewrite Hcwd).
      intros [= <- _]. right. by left. }
  destruct v as [| flag | n | command].
  4:{ intros Hrun. exfalso.
      eapply (execute_safe_command_never_raises args command w home); [done.. |].
      unfold execute_safe_command. rewrite Hc. exact Hrun. }
  all: erewrite bind_run by (unfold os_getcwd; by rewrite Hcwd).
  all: intros [= <- _]; right; by right.
Qed.

(** X6.  [handle_call_tool] passes the three tool names on to the three
    operations and raises [ValueError] with the offending name for any other
    name, without touching the world.  Conversely, when a [ValueError]
    leaves [handle_call_tool], either the tool name is unknown, or the error
    is the [UnicodeDecodeError] of one of the two readers, met with a file
    whose bytes do not decode. *)
Theorem handle_call_tool_dispatch (name : string) (arguments : gmap string pyval)
  (w : World) :
  handle_call_tool "run_command_safe" arguments w = execute_safe_command arguments w /\
  handle_call_tool "check_command_status" arguments w = check_status arguments w /\
  handle_call_tool "get_terminal_context" arguments w = get_context arguments w /\
  (~ known_tool name ->
   handle_call_tool name arguments w =
     (Raise (Exn ValueError ("Unknown tool: " +:+ name)), w)) /\
  (forall e w', handle_call_tool name arguments w = (Raise e, w') ->
                is_ValueError (exn_cls e) = true ->
                ~ known_tool name \/
                (exn_cls e = UnicodeDecodeError /\ name <> "run_command_safe" /\
                 some_file_undecodable w)).
Proof.
  split; [done |]. split; [done |]. split; [done |]. split.
  - intros Hunknown. unfold handle_call_tool, known_tool in *.
    destruct (String.eqb_spec name "run_command_safe"); [tauto |].
    destruct (String.eqb_spec name "check_command_status"); [tauto |].
    destruct (String.eqb_spec name "get_terminal_context"); [tauto |]. done.
  - intros e w' Hrun Hcls. unfold handle_call_tool in Hrun.
    destruct (String.eqb_spec name "run_command_safe") as [-> | Hn1].
    { apply execute_safe_command_raise_class in Hrun.
      destruct Hrun as [H | [H | H]]; rewrite H in Hcls; discriminate Hcls. }
    destruct (String.eqb_spec name "check_command_status") as [-> | Hn2].
    { right. destruct (check_status_outcome arguments w) as (o & Ho & Hok).
      rewrite Ho in Hrun. injection Hrun as -> _.
      destruct Hok as [[[Hc _] | [Hc Hbad]] | [Hc _]];
        try (rewrite Hc in Hcls; discriminate Hcls). done. }
    destruct (String.eqb_spec name "get_terminal_context") as [-> | Hn3].
    { right. destruct (get_context_outcome arguments w) as (o & Ho & Hok).
      rewrite Ho in Hrun. injection Hrun as -> _.
      destruct Hok as [[[Hc _] | [Hc Hbad]] | [Hc _]];
        try (rewrite Hc in Hcls; discriminate Hcls). done. }
    left. unfold known_tool. tauto.
Qed.

Lemma handle_call_tool_dispatch_witness :
  handle_call_tool "run_command" ∅ demo_world =
    (Raise (Exn ValueError "Unknown tool: run_command"), demo_world) /\
  ~ known_tool "delete_everything" /\
  some_file_undecodable garbled_log_world.
Proof.
  destruct (handle_call_tool_dispatch "run_command" ∅ demo_world) as (_ & _ & _ & H & _).
  destruct (handle_call_tool_dispatch "delete_everything" ∅ demo_world)
    as (_ & _ & _ & _ & H').
  destruct (handle_call_tool_dispatch "check_command_status" ∅ garbled_log_world)
    as (_ & _ & _ & _ & H'').
  split; [| split].
  - apply H. intros [? | [? | ?]]; discriminate.
  - destruct (H' (Exn ValueError "Unknown tool: delete_everything") demo_world)
      as [Hunknown | [Hcls _]]; [reflexivity | reflexivity | exact Hunknown |
                                  discriminate Hcls].
  - destruct (H'' (Exn UnicodeDecodeError
                     "'utf-8' codec can't decode byte 0xff in position 0: invalid start byte")
                garbled_log_world) as [Hunknown | (_ & _ & Hbad)];
      [reflexivity | reflexivity | | exact Hbad].
    exfalso. apply Hunknown. right. by left.
Defined.

(** ** The report of recent activity *)

Lemma get_context_body_block (n : Z) context log_file w :
  1 <= n ->
  file_readable w log_file ->
  get_context_body (VInt n) context log_file w =
  (Ret (context +:+ context_block n w log_file), w).
Proof.
  intros Hn Hr. unfold context_block, file_readable in *.
  destruct (lookup_file log_file (w_files w)) as [f |] eqn:Hf.
  - destruct Hr as [Hr Hdec].
    rewrite (get_context_body_run n context log_file f w Hf Hr Hdec).
    set (content_lines := splitlines (file_text f)).
    destruct (Z.ltb_spec n (Z.of_nat (length content_lines))) as [Hlt | Hge].
    + replace (Z.of_nat (length content_lines) >? n) with true by lia.
      destruct (slice_from_last n content_lines) as [-> _]; [lia |].
      unfold last_lines. rewrite ?str_app_assoc; reflexivity.
    + replace (Z.of_nat (length content_lines) >? n) with false by lia.
      rewrite ?str_app_assoc; reflexivity.
  - unfold get_context_body. run_get (path_exists log_file). rewrite Hf.
    unfold ret. by rewrite str_app_nil_r.
Qed.

Lemma last_lines_spec (n : nat) (ls : list string) :
  (n <= length ls)%nat ->
  length (last_lines n ls) = n /\ exists earlier, ls = earlier ++ last_lines n ls.
Proof.
  intros Hn. unfold last_lines. split.
  - rewrite length_drop. lia.
  - exists (take (length ls - n) ls). by rewrite take_drop.
Qed.

(** X7.  Asked for [n >= 1] lines (50 when [lines] is absent), [get_context]
    reports on at most 3 log files of any kind, the most recently modified
    ones, newest first; each readable log is shown whole when it has at most
    [n] lines, and otherwise by a note and exactly its last [n] lines. *)
Theorem get_context_report (args : gmap string pyval) (w : World) (n : Z) :
  default (VInt 50) (args !! "lines") = VInt n ->
  1 <= n ->
  (forall x, x ∈ listed_logs w -> file_readable w x.1) ->
  let found :=
    List.filter (fun nf => glob_match EmptyString ".log" (fst nf)) (w_files w) in
  (length (listed_logs w) <= 3)%nat /\
  StronglySorted newer_or_same (listed_logs w) /\
  (exists older,
     listed_logs w ++ older ≡ₚ found /\
     forall x y, x ∈ listed_logs w -> y ∈ older -> newer_or_same x y) /\
  get_context args w =
    (Ret (text_result
            ("=== Recent Terminal Activity ===" +:+ nl +:+
             concat_blocks (context_block n w) ((listed_logs w).*1))), w) /\
  (forall ls : list string,
     n < Z.of_nat (length ls) ->
     length (last_lines (Z.to_nat n) ls) = Z.to_nat n /\
     exists earlier, ls = earlier ++ last_lines (Z.to_nat n) ls).
Proof.
  intros Hlines Hn Hok found.
  assert (StronglySorted newer_or_same (sorted_by_mtime_desc found)) as Hsorted
    by apply sorted_by_mtime_desc_sorted.
  rewrite <- (take_drop 3 (sorted_by_mtime_desc found)) in Hsorted.
  split; [| split; [| split; [| split]]].
  - unfold listed_logs. rewrite length_take. lia.
  - by apply StronglySorted_app_1_l in Hsorted.
  - exists (drop 3 (sorted_by_mtime_desc found)). split.
    + unfold listed_logs. fold found. rewrite take_drop.
      apply sorted_by_mtime_desc_perm.
    + intros x y Hx Hy. by eapply StronglySorted_app_1_elem_of.
  - unfold get_context. rewrite Hlines.
    run_get (glob EmptyString ".log"). fold found.
    erewrite bind_run.
    2:{ apply (for_in_blocks _ _ (context_block n w)).
        intros name acc Hname.
        rewrite <- fmap_take in Hname.
        apply list_elem_of_fmap in Hname as (y & -> & Hy).
        apply get_context_body_block; [done |]. by apply Hok. }
    unfold listed_logs. fold found. by rewrite fmap_take.
  - intros ls Hls. apply last_lines_spec. lia.
Qed.

Lemma get_context_report_witness :
  get_context (<["lines" := VInt 2]> ∅) three_line_world =
    (Ret (text_result
            ("=== Recent Terminal Activity ===" +:+ nl +:+
             concat_blocks (context_block 2 three_line_world)
               ["safe_1700000000.log"])), three_line_world) /\
  last_lines 2 ["one"; "two"; "three"] = ["two"; "three"].
Proof.
  destruct (get_context_report (<["lines" := VInt 2]> ∅) three_line_world 2)
    as (_ & _ & _ & Hrun & Hlast).
  - reflexivity.
  - lia.
  - intros x Hx. apply list_elem_of_In in Hx. vm_compute in Hx.
    destruct Hx as [<- | []]. split; reflexivity.
  - split; [exact Hrun |].
    destruct (Hlast ["one"; "two"; "three"]) as [_ _]; [simpl; lia | reflexivity].
Defined.

(** ** The background launcher *)

Lemma background_run_success command cwd w pid b d :
  w_writable w = true ->
  let log := bg_log_name (w_now w) command in
  let pid_file := bg_pid_name (w_now w) command in
  let log_path := w_output_dir w +:+ "/" +:+ log in
  let cmdline := background_command_line command log_path in
  w_shell w cmdline cwd = Spawned pid b ->
  b_exit b = Some d ->
  let fs1 := apply_writes (w_now w) (b_writes b) (w_files w) in
  match lookup_file log fs1 with
  | Some f => f_readable f = true /\ f_decoding f = Decodes
  | None => True
  end ->
  let initial :=
    match lookup_file log fs1 with
    | Some f => PyStr.take 500 (file_text f)
    | None => EmptyString
    end in
  let pid_text := PyStr.strip (b_stdout b) in
  execute_background command cwd w =
  (Ret (text_result (launch_text pid_text log_path initial)),
   mkWorld (w_now w + Z.max 0 d + 1) (w_ctime w) (w_getcwd w) (w_output_dir w)
     (store_file pid_file
        (File pid_text (w_now w + Z.max 0 d) (readable_flag pid_file fs1) Decodes) fs1)
     (w_writable w) (w_shell w) (w_kill0 w)
     (List.filter (fun p => negb (p =? pid)) (w_children w ++ [pid]))
     (w_events w ++ [EvSpawn pid cmdline; EvOpenW pid_file; EvSleep 1])).
Proof.
  intros Hw log pid_file log_path cmdline Hs He fs1 Hr initial pid_text.
  unfold execute_background.
  run_get time_time. run_get (path_str (bg_log_name (w_now w) command)).
  fold log log_path.
  erewrite try_except_ret; [reflexivity |].
  erewrite (bind_run (create_subprocess_shell _ _))
    by (unfold create_subprocess_shell; world_nf;
        change (command +:+ " > " +:+ log_path +:+ " 2>&1 & echo $!") with cmdline;
        rewrite Hs; reflexivity).
  world_nf.
  erewrite (bind_run (communicate _))
    by (unfold communicate; world_nf; rewrite He; reflexivity).
  world_nf.
  erewrite (bind_run (open_w _)) by (apply open_w_run; exact Hw). world_nf.
  run_write.
  erewrite (bind_run (asyncio_sleep _)) by reflexivity.
  unfold asyncio_sleep, modify. world_nf.
  run_get (path_exists (bg_log_name (w_now w) command)).
  fold log pid_file fs1 pid_text.
  rewrite (lookup_store_ne pid_file log) by apply bg_names_differ.
  rewrite <- !app_assoc. cbn [app]. rewrite !str_app_nil_l.
  subst initial. unfold launch_text.
  destruct (lookup_file log fs1) as [f |] eqn:Hf.
  - destruct Hr as [Hr Hdec].
    erewrite bind_run.
    2:{ erewrite (bind_run (open_r _)).
        2:{ apply open_r_run; [| exact Hr]. world_nf.
            rewrite (lookup_store_ne pid_file log) by apply bg_names_differ.
            exact Hf. }
        erewrite (bind_run (f_read_n _ _)) by (by apply f_read_n_run).
        reflexivity. }
    unfold ret.
    destruct (negb _); rewrite ?str_app_assoc, ?str_app_nil_r; reflexivity.
  - erewrite bind_run by reflexivity. unfold ret. simpl.
    rewrite ?str_app_assoc, ?str_app_nil_r. reflexivity.
Qed.

(** ** Reversal, stripping and decimal numerals *)

Lemma str_rev_app_app (s t : string) : String.rev_app s t = String.rev s +:+ t.
Proof.
  unfold String.rev. revert t. induction s as [|c s IH]; intros t; simpl; [done |].
  rewrite (IH (String c t)), (IH (String c EmptyString)).
  by rewrite str_app_assoc.
Qed.

Lemma str_rev_cons (c : ascii) (s : string) :
  String.rev (String c s) = String.rev s +:+ String c EmptyString.
Proof. unfold String.rev at 1. simpl. apply str_rev_app_app. Qed.

Lemma str_rev_app_distr (a b : string) : String.rev (a +:+ b) = String.rev b +:+ String.rev a.
Proof.
  induction a as [|c a IH].
  - by rewrite str_app_nil_l, str_app_nil_r.
  - by rewrite str_app_cons, !str_rev_cons, IH, str_app_assoc.
Qed.

Lemma str_rev_involutive (s : string) : String.rev (String.rev s) = s.
Proof.
  induction s as [|c s IH]; [done |].
  by rewrite str_rev_cons, str_rev_app_distr, IH.
Qed.

Lemma is_suffix_inv (p s : string) :
  is_suffix p s = true -> exists v, s = v +:+ p.
Proof.
  unfold is_suffix. intros [v Hv]%is_prefix_inv. exists (String.rev v).
  by rewrite <- (str_rev_involutive s), Hv, str_rev_app_distr, str_rev_involutive.
Qed.

Lemma all_chars_app f (a b : string) :
  all_chars f (a +:+ b) = all_chars f a && all_chars f b.
Proof.
  induction a as [|c a IH]; [done |].
  rewrite str_app_cons. simpl. by rewrite IH, andb_assoc.
Qed.

Lemma all_chars_rev f (s : string) : all_chars f (String.rev s) = all_chars f s.
Proof.
  induction s as [|c s IH]; [done |].
  rewrite str_rev_cons, all_chars_app, IH. simpl.
  rewrite andb_true_r. apply andb_comm.
Qed.

Lemma all_chars_impl (f g : ascii -> bool) (s : string) :
  (forall c, f c = true -> g c = true) -> all_chars f s = true -> all_chars g s = true.
Proof.
  intros Hfg. induction s as [|c s IH]; simpl; [done |].
  intros [Hc Hs]%andb_true_iff. by rewrite (Hfg c Hc), IH.
Qed.

Lemma drop_while_none f (s : string) :
  all_chars (fun c => negb (f c)) s = true -> PyStr.drop_while f s = s.
Proof.
  destruct s as [|c s]; simpl; [done |].
  intros [Hc _]%andb_true_iff. by apply negb_true_iff in Hc as ->.
Qed.

(** Text without white space is left alone by [strip]. *)
Lemma strip_without_space (s : string) :
  all_chars (fun c => negb (PyStr.isspace c)) s = true -> PyStr.strip s = s.
Proof.
  intros Hs. unfold PyStr.strip.
  rewrite (drop_while_none _ s Hs).
  rewrite drop_while_none by (by rewrite all_chars_rev).
  apply str_rev_involutive.
Qed.

(** Text without carriage returns is read as it was written. *)
Lemma universal_newlines_without_cr (s : string) :
  all_chars (fun c => negb (Ascii.eqb c "013")) s = true ->
  PyStr.universal_newlines s = s.
Proof.
  induction s as [|c s IH]; simpl; [done |].
  intros [Hc Hs]%andb_true_iff. apply negb_true_iff in Hc. rewrite Hc.
  by rewrite IH.
Qed.

Lemma digit_is_plain c :
  is_digit c = true ->
  negb (PyStr.isspace c) = true /\ negb (Ascii.eqb c "013") = true /\
  c <> "-"%char /\ c <> "+"%char.
Proof.
  destruct c as [[] [] [] [] [] [] [] []]; intros H; try discriminate H;
    repeat split; discriminate.
Qed.

Lemma pretty_N_char_digit (m : N) :
  (m < 10)%N ->
  is_digit (pretty_N_char m) = true /\ digit_value (pretty_N_char m) = Z.of_N m.
Proof.
  intros Hm.
  assert (m = 0 \/ m = 1 \/ m = 2 \/ m = 3 \/ m = 4 \/ m = 5 \/ m = 6 \/ m = 7 \/
          m = 8 \/ m = 9)%N as H by lia.
  destruct H as [-> | [-> | [-> | [-> | [-> | [-> | [-> | [-> | [-> | ->]]]]]]]]];
    by split.
Qed.

Lemma pretty_N_go_digits (x : N) (s : string) :
  all_chars is_digit s = true -> all_chars is_digit (pretty_N_go x s) = true.
Proof.
  revert s. induction (N.lt_wf_0 x) as [x _ IH]; intros s Hs.
  assert (x = 0 \/ 0 < x)%N as [-> | Hx] by lia; [by rewrite pretty_N_go_0 |].
  rewrite pretty_N_go_step by done. apply IH; [by apply N.div_lt |].
  simpl. rewrite Hs, andb_true_r. apply pretty_N_char_digit. by apply N.mod_lt.
Qed.

Lemma pretty_N_go_nonempty (x : N) (s : string) :
  s <> EmptyString -> pretty_N_go x s <> EmptyString.
Proof.
  revert s. induction (N.lt_wf_0 x) as [x _ IH]; intros s Hs.
  destruct (N.eq_0_gt_0_cases x) as [-> | Hx]; [by rewrite pretty_N_go_0 |].
  rewrite pretty_N_go_step by done. apply IH; [by apply N.div_lt | done].
Qed.

Lemma int_digits_pretty_N_go (x : N) :
  (0 < x)%N ->
  exists k, forall acc after_digit s,
    int_digits acc after_digit (pretty_N_go x s) =
    int_digits (acc * 10 ^ Z.of_nat k + Z.of_N x) true s.
Proof.
  induction (N.lt_wf_0 x) as [x _ IH]; intros Hx.
  destruct (pretty_N_char_digit (x `mod` 10)%N) as [Hd Hv]; [by apply N.mod_lt |].
  assert (Z.of_N x = 10 * Z.of_N (x `div` 10) + Z.of_N (x `mod` 10)) as Hx10.
  { rewrite (N.div_mod x 10) at 1 by done. lia. }
  destruct (N.eq_0_gt_0_cases (x `div` 10)) as [H0 | Hpos].
  - exists 1%nat. intros acc after_digit s.
    rewrite pretty_N_go_step, H0, pretty_N_go_0 by done. simpl.
    rewrite Hd, Hv. f_equal. rewrite Hx10, H0. lia.
  - destruct (IH (x `div` 10)%N) as [k Hk]; [by apply N.div_lt | done |].
    exists (S k). intros acc after_digit s.
    rewrite pretty_N_go_step, Hk by done. simpl int_digits.
    rewrite Hd, Hv. f_equal. rewrite Hx10, Nat2Z.inj_succ, Z.pow_succ_r by lia. lia.
Qed.

Lemma count_digits_le_length (s : string) : (count_digits s <= String.length s)%nat.
Proof. induction s as [|c s IH]; simpl; [done |]. destruct (is_digit c); lia. Qed.

Lemma pretty_N_go_length (k : nat) (x : N) (s : string) :
  (x < 10 ^ N.of_nat k)%N ->
  (String.length (pretty_N_go x s) <= k + String.length s)%nat.
Proof.
  revert x s. induction k as [|k IH]; intros x s Hx.
  - assert (x = 0%N) as -> by (simpl in Hx; lia). by rewrite pretty_N_go_0.
  - destruct (N.eq_0_gt_0_cases x) as [-> | Hpos].
    { rewrite pretty_N_go_0. lia. }
    rewrite pretty_N_go_step by done.
    etrans; [apply IH |]; [| simpl; lia].
    apply N.Div0.div_lt_upper_bound.
    rewrite Nat2N.inj_succ, N.pow_succ_r' in Hx. exact Hx.
Qed.

(** [int(str(p)) = p] for a process id, and the numeral is made of digits. *)
Lemma py_int_pretty (p : Z) :
  0 <= p <= 2147483647 ->
  all_chars is_digit (pretty p) = true /\
  py_int (PyStr.strip (PyStr.universal_newlines (pretty p))) = Some p.
Proof.
  intros Hp.
  assert (count_digits (pretty p) <= 10)%nat as Hcount.
  { etrans; [apply count_digits_le_length |].
    destruct p as [| x | x]; [simpl; lia | | lia].
    change (pretty (Z.pos x)) with (pretty_N_go (N.pos x) EmptyString).
    etrans; [apply (pretty_N_go_length 10) |]; [| simpl; lia].
    change (10 ^ N.of_nat 10)%N with 10000000000%N. lia. }
  assert (all_chars is_digit (pretty p) = true /\
          int_digits 0 false (pretty p) = Some p /\ pretty p <> EmptyString)
    as (Hdigits & Hvalue & Hne).
  { destruct p as [| x | x]; [done | | lia].
    change (pretty (Z.pos x)) with (pretty_N_go (N.pos x) EmptyString).
    split; [by apply pretty_N_go_digits |].
    destruct (int_digits_pretty_N_go (N.pos x)) as [k Hk]; [lia |].
    split; [rewrite Hk; simpl; f_equal; lia |].
    rewrite pretty_N_go_step by lia. by apply pretty_N_go_nonempty. }
  split; [done |].
  rewrite universal_newlines_without_cr
    by (eapply all_chars_impl; [| exact Hdigits]; intros c Hc; by apply digit_is_plain).
  assert (PyStr.strip (pretty p) = pretty p) as Hstrip.
  { apply strip_without_space. eapply all_chars_impl; [| exact Hdigits].
    intros c Hc. by apply digit_is_plain. }
  unfold py_int. rewrite !Hstrip. clear Hstrip. cbv zeta.
  replace (int_max_str_digits <? Z.of_nat (count_digits (pretty p))) with false
    by (unfold int_max_str_digits; lia).
  clear Hcount.
  destruct (pretty p) as [|c s] eqn:Hs; [done |].
  simpl in Hdigits. apply andb_true_iff in Hdigits as [Hc _].
  destruct (digit_is_plain c Hc) as (_ & _ & Hminus & Hplus).
  destruct (Ascii.eqb_spec c "-"); [done |].
  destruct (Ascii.eqb_spec c "+"); [done |].
  revert Hvalue. clear -Hminus Hplus.
  destruct c as [[] [] [] [] [] [] [] []]; try done.
Qed.

(** The stem of [<stem>.log] is [<stem>]. *)
Lemma before_last_dot_log (stem : string) :
  before_last_dot (stem +:+ ".log") = Some stem.
Proof.
  induction stem as [|c stem IH]; [done |].
  rewrite str_app_cons. simpl. by rewrite IH.
Qed.

Lemma path_stem_log (stem : string) :
  stem <> EmptyString -> path_stem (stem +:+ ".log") = stem.
Proof.
  intros Hne. unfold path_stem. rewrite before_last_dot_log.
  destruct stem as [|c stem]; [done |].
  rewrite str_length_app.
  destruct (Nat.eqb_spec (S (String.length (String c stem)))
              (String.length (String c stem) + String.length ".log")) as [Hl | _];
    [simpl in Hl; lia | done].
Qed.

(** The marker [check_status] looks for beside the log of a launch is the
    one [execute_background] wrote. *)
Lemma bg_marker_of_log (timestamp : Z) (command : string) :
  path_stem (bg_log_name timestamp command) +:+ ".pid" = bg_pid_name timestamp command.
Proof.
  unfold bg_log_name, bg_pid_name.
  replace ("bg_" +:+ pretty timestamp +:+ "_" +:+ safe_name command +:+ ".log")
    with (("bg_" +:+ pretty timestamp +:+ "_" +:+ safe_name command) +:+ ".log")
    by (by rewrite ?str_app_assoc).
  rewrite path_stem_log by done.
  by rewrite ?str_app_assoc.
Qed.

(** A started process leaves readable what it writes. *)
Lemma apply_writes_readable name now ws fs :
  match lookup_file name fs with
  | Some f => f_readable f = true /\ f_decoding f = Decodes
  | None => True
  end ->
  match lookup_file name (apply_writes now ws fs) with
  | Some f => f_readable f = true /\ f_decoding f = Decodes
  | None => True
  end.
Proof.
  revert fs. induction ws as [|[n c] ws IH]; intros fs H; [done |].
  unfold apply_writes. simpl.
  fold (apply_writes now ws (store_file n (File c now true Decodes) fs)).
  apply IH. destruct (String.eqb_spec n name) as [-> | Hne].
  - by rewrite lookup_store_eq.
  - by rewrite lookup_store_ne.
Qed.

(** ** What a background launch reports and leaves behind *)





(** ** From launch to status *)

(** X10.  A launch followed by a status check: the marker [check_status]
    derives from the name of the log is the file the launcher wrote, and
    when the shell printed the decimal numeral of a process id [p] that fits
    a C [int], the status found for the launch is Running exactly when the
    kernel knows the process [p], and Completed otherwise.  (The output
    directory accepts writes; older files with the names of the log and of
    the marker, if any, can be read.) *)
Theorem launch_then_status command cwd w pid b d p :
  let log := bg_log_name (w_now w) command in
  let pid_file := bg_pid_name (w_now w) command in
  let log_path := w_output_dir w +:+ "/" +:+ log in
  let cmdline := background_command_line command log_path in
  w_writable w = true ->
  file_readable w log ->
  file_readable w pid_file ->
  w_shell w cmdline cwd = Spawned pid b ->
  b_exit b = Some d ->
  PyStr.strip (b_stdout b) = pretty p ->
  0 <= p <= 2147483647 ->
  let w' := snd (execute_background command cwd w) in
  path_stem log +:+ ".pid" = pid_file /\
  probe_status (path_stem log +:+ ".pid") w' =
    (Ret (liveness_text
            match w_kill0 w p with
            | Alive => Running
            | NoSuchProcess | NotPermitted => Completed
            end), w').
Proof.
  intros log pid_file log_path cmdline Hw Hr Hrp Hs He Hp Hrange w'.
  assert (path_stem log +:+ ".pid" = pid_file) as Hname by apply bg_marker_of_log.
  split; [exact Hname |]. rewrite Hname.
  pose proof (apply_writes_readable log (w_now w) (b_writes b) (w_files w) Hr) as Hr1.
  pose proof (apply_writes_readable pid_file (w_now w) (b_writes b) (w_files w) Hrp) as Hrp1.
  destruct (py_int_pretty p) as [_ Hint]; [lia |].
  assert (lookup_file pid_file (w_files w') =
          Some (File (pretty p) (w_now w + Z.max 0 d)
                  (readable_flag pid_file
                     (apply_writes (w_now w) (b_writes b) (w_files w))) Decodes) /\
          w_kill0 w' = w_kill0 w) as [Hmarker Hkill].
  { subst w'.
    rewrite (background_run_success command cwd w pid b d Hw Hs He Hr1).
    cbn [snd]. world_nf. by rewrite lookup_store_eq, Hp. }
  assert (readable_flag pid_file (apply_writes (w_now w) (b_writes b) (w_files w)) = true)
    as Hflag.
  { unfold readable_flag.
    destruct (lookup_file pid_file (apply_writes (w_now w) (b_writes b) (w_files w)));
      [by destruct Hrp1 | done]. }
  rewrite Hflag in Hmarker.
  rewrite probe_status_run.
  - unfold liveness_of. rewrite Hmarker. unfold file_text. cbn [f_data].
    by rewrite Hint, Hkill.
  - unfold marker_ok. rewrite Hmarker. unfold file_text.
    cbn [f_data f_readable f_decoding].
    rewrite Hint. split; [done |]. split; [done | lia].
Qed.

Lemma launch_then_status_witness :
  probe_status "bg_1700000000_pytest.pid"
    (snd (execute_background "pytest" (VStr "/home/dev") running_world)) =
    (Ret "🔄 Running", snd (execute_background "pytest" (VStr "/home/dev") running_world)) /\
  probe_status "bg_1700000000_pytest.pid"
    (snd (execute_background "pytest" (VStr "/home/dev") demo_world)) =
    (Ret "✅ Completed", snd (execute_background "pytest" (VStr "/home/dev") demo_world)).
Proof.
  split.
  - refine (proj2 (launch_then_status "pytest" (VStr "/home/dev") running_world 4244
                     (over_after 0 ("4245" +:+ nl) 0
                        [("bg_1700000000_pytest.log", "no tests ran" +:+ nl)])
                     0 4245 _ _ _ _ _ _ _)); try reflexivity; try exact I.
    simpl. lia.
  - refine (proj2 (launch_then_status "pytest" (VStr "/home/dev") demo_world 4244
                     (over_after 0 ("4245" +:+ nl) 0
                        [("bg_1700000000_pytest.log", "no tests ran" +:+ nl)])
                     0 4245 _ _ _ _ _ _ _)); try reflexivity; try exact I.
    simpl. lia.
Defined.

(** ** Two bounded executions within one second *)

(** X11.  The name of the log of a bounded execution is made from the clock
    in seconds alone.  When a first execution ends within the second in
    which it began, a second execution started then uses the same file, and
    opening it for writing discards the record of the first: afterwards the
    log holds the header, output and summary of the second execution and
    nothing else.  (Both processes exit in time and do not themselves write
    into that log; the output directory accepts writes.) *)
Theorem same_second_log_overwritten c1 c2 cwd1 cwd2 t1 t2 w pid1 b1 pid2 b2 :
  let log := safe_log_name (w_now w) in
  w_writable w = true ->
  w_shell w c1 cwd1 = Spawned pid1 b1 ->
  exits_in_time t1 b1 = true -> run_time b1 = 0 ->
  log ∉ (b_writes b1).*1 ->
  w_shell w c2 cwd2 = Spawned pid2 b2 ->
  exits_in_time t2 b2 = true ->
  log ∉ (b_writes b2).*1 ->
  let w1 := snd (execute_with_timeout c1 cwd1 (VInt t1) w) in
  let w2 := snd (execute_with_timeout c2 cwd2 (VInt t2) w1) in
  safe_log_name (w_now w1) = log /\
  f_data <$> lookup_file log (w_files w1) =
    Some (safe_header c1 cwd1 (VInt t1) (w_ctime w (w_now w)) +:+ b_stdout b1 +:+
          completion_summary (b_returncode b1) (w_ctime w (w_now w))) /\
  f_data <$> lookup_file log (w_files w2) =
    Some (safe_header c2 cwd2 (VInt t2) (w_ctime w (w_now w)) +:+ b_stdout b2 +:+
          completion_summary (b_returncode b2) (w_ctime w (w_now w + run_time b2))).
Proof.
  intros log Hw Hs1 Hin1 Hrt1 Hwr1 Hs2 Hin2 Hwr2 w1 w2.
  pose proof (bounded_run_success c1 cwd1 t1 w pid1 b1 Hw Hs1 Hin1 Hwr1) as Hrun1.
  cbv zeta in Hrun1. rewrite Hrt1, Z.add_0_r in Hrun1.
  assert (w_now w1 = w_now w /\ w_writable w1 = true /\ w_shell w1 = w_shell w /\
          w_ctime w1 = w_ctime w) as (Hnow & Hw1 & Hsh & Hct).
  { subst w1. rewrite Hrun1. cbn [snd]. world_nf. done. }
  split; [by rewrite Hnow |].
  split.
  { subst w1. rewrite Hrun1. cbn [snd]. world_nf. by rewrite lookup_store_eq. }
  subst w2.
  rewrite (bounded_run_success c2 cwd2 t2 w1 pid2 b2); cycle 1.
  { exact Hw1. }
  { by rewrite Hsh. }
  { exact Hin2. }
  { by rewrite Hnow. }
  cbn [snd]. world_nf. rewrite Hnow, Hct. fold log.
  by rewrite lookup_store_eq.
Qed.

Lemma same_second_log_overwritten_witness :
  let w1 := snd (execute_with_timeout "echo hello" (VStr ".") (VInt 5) demo_world) in
  let w2 := snd (execute_with_timeout "ls" (VStr ".") (VInt 5) w1) in
  f_data <$> lookup_file "safe_1700000000.log" (w_files w1) =
    Some (safe_header "echo hello" (VStr ".") (VInt 5) (demo_ctime 1700000000) +:+
          ("hello" +:+ nl) +:+ completion_summary 0 (demo_ctime 1700000000)) /\
  f_data <$> lookup_file "safe_1700000000.log" (w_files w2) =
    Some (safe_header "ls" (VStr ".") (VInt 5) (demo_ctime 1700000000) +:+
          EmptyString +:+ completion_summary 127 (demo_ctime 1700000000)).
Proof.
  refine (proj2 (same_second_log_overwritten "echo hello" "ls" (VStr ".") (VStr ".") 5 5
                   demo_world 4242 (over_after 0 ("hello" +:+ nl) 0 [])
                   4246 (over_after 0 EmptyString 127 []) _ _ _ _ _ _ _ _));
    try reflexivity; simpl; apply not_elem_of_nil.
Defined.

(** ** When the bounded route does not answer *)

Lemma exits_in_time_not_deadline_first t b :
  exits_in_time t b = true -> deadline_first t b = false.
Proof.
  unfold exits_in_time, deadline_first.
  destruct (b_exit b) as [d |]; [| done].
  intros [Hin _]%andb_true_iff. rewrite Hin. apply andb_false_r.
Qed.

(** X12.  An execute call that takes the bounded route never raises, and
    there is exactly one way for it not to return: the deadline has elapsed
    before [communicate()] was through, the shell has been killed, and the
    wait for it never returns, because a process that the shell had started
    keeps the captured pipe open.  In every other case the call returns a
    report.  (The command is a string, the working directory of the server
    exists, the timeout is absent, null or an integer, and the command does
    not itself write into the log of the invocation.) *)
Theorem bounded_route_hangs_only_in_wait (args : gmap string pyval) command w home t :
  args !! "command" = Some (VStr command) ->
  w_getcwd w = Some home ->
  truthy (default (VBool false) (args !! "force_background")) = false ->
  classify_command command ∈ ["complex"; "quick"] ->
  py_or (default VNone (args !! "timeout")) (VInt safe_timeout) = VInt t ->
  let cwd := default (VStr home) (args !! "cwd") in
  (forall pid b, w_shell w command cwd = Spawned pid b ->
                 safe_log_name (w_now w) ∉ (b_writes b).*1) ->
  (forall e w', execute_safe_command args w <> (Raise e, w')) /\
  (fst (execute_safe_command args w) = Hang <->
   w_writable w = true /\
   exists pid b,
     w_shell w command cwd = Spawned pid b /\
     deadline_first t b = true /\
     wait_returns b (Z.max 0 t) = None).
Proof.
  intros Hc Hh Hforce Hcat Ht cwd Hwr.
  rewrite (execute_safe_command_unfold args command w home Hc Hh), Hforce, Ht.
  destruct (str_in (classify_command command) ["test"; "build"; "long"]) eqn:Hin.
  { apply str_in_spec in Hin. apply list_elem_of_In in Hin, Hcat.
    simpl in Hin, Hcat. exfalso. intuition congruence. }
  cbn [orb]. fold cwd.
  split; [intros e w'; apply execute_with_timeout_never_raises |].
  destruct (w_writable w) eqn:Hw.
  2:{ rewrite bounded_write_failure_reported by done. cbn [fst].
      split; [done | by intros [? _]]. }
  destruct (w_shell w command cwd) as [e | pid b] eqn:Hs.
  { rewrite (bounded_run_spawn_failure command cwd t w e Hw Hs). cbn [fst].
    split; [done | by intros (_ & ? & ? & ? & _)]. }
  specialize (Hwr pid b eq_refl).
  destruct (exits_in_time t b) eqn:Hexit.
  { rewrite (bounded_run_success command cwd t w pid b Hw Hs Hexit Hwr). cbn [fst].
    split; [done |]. intros (_ & pid' & b' & [= <- <-] & Hfirst & _).
    by rewrite (exits_in_time_not_deadline_first t b Hexit) in Hfirst. }
  destruct (deadline_first t b) eqn:Hfirst.
  2:{ assert (float_overflow t = true) as Hfl.
      { unfold exits_in_time in Hexit. unfold deadline_first in Hfirst.
        destruct (float_overflow t); [done |]. simpl in *.
        destruct (b_exit b) as [d |]; [| done].
        rewrite andb_true_r in Hexit. by rewrite Hexit in Hfirst. }
      rewrite (bounded_run_overflow command cwd t w pid b Hw Hs Hfl). cbn [fst].
      split; [done |]. intros (_ & pid' & b' & [= <- <-] & Hfirst' & _). congruence. }
  destruct (wait_returns b (Z.max 0 t)) as [r |] eqn:Hwait.
  - rewrite (bounded_run_timeout command cwd t w pid b r Hw Hs Hfirst Hwait Hwr).
    cbn [fst]. split; [done |].
    intros (_ & pid' & b' & [= <- <-] & _ & Hnone). congruence.
  - rewrite (bounded_run_stuck command cwd t w pid b Hw Hs Hfirst Hwait). cbn [fst].
    split; [| done]. intros _. split; [done |]. by exists pid, b.
Qed.

Lemma bounded_route_hangs_only_in_wait_witness :
  fst (execute_safe_command
         (<["command" := VStr "sleep infinity"]> (<["timeout" := VInt 1]> ∅))
         demo_world) = Hang /\
  fst (execute_safe_command (<["command" := VStr "sleep 10"]> ∅) demo_world) <> Hang.
Proof.
  split.
  - apply (bounded_route_hangs_only_in_wait _ "sleep infinity" demo_world "/home/dev" 1).
    + reflexivity.
    + reflexivity.
    + reflexivity.
    + in_list.
    + reflexivity.
    + intros pid b [= _ <-]. simpl. apply not_elem_of_nil.
    + split; [reflexivity |].
      exists 4247, (Behaviour None None (fun _ => None) EmptyString 0 []).
      repeat split; reflexivity.
  - intros Hhang.
    apply (bounded_route_hangs_only_in_wait _ "sleep 10" demo_world "/home/dev" 8)
      in Hhang.
    + destruct Hhang as (_ & pid & b & [= _ <-] & _ & Hnone). discriminate Hnone.
    + reflexivity.
    + reflexivity.
    + reflexivity.
    + in_list.
    + reflexivity.
    + intros pid b [= _ <-]. simpl. apply not_elem_of_nil.
Defined.

(** ** A deadline that has elapsed *)

(** X13.  When the deadline of a bounded execution elapses before
    [communicate()] is through, the shell is killed and then waited for,
    and when that wait returns, [r] seconds after the start, the process is
    no longer a child, the timeout marker is appended to the log, stamped
    with the time at which the wait returned, and the report is the timeout
    report: neither the success report nor the error report, and it tells
    the caller to use [force_background=true].  The call has then taken [r]
    seconds, not the seconds of the deadline.  (The deadline is one the
    clock of the event loop can hold, the output directory accepts writes,
    and the command does not itself write into that log.) *)
Theorem bounded_timeout_report command cwd t w pid b r :
  w_writable w = true ->
  w_shell w command cwd = Spawned pid b ->
  deadline_first t b = true ->
  wait_returns b (Z.max 0 t) = Some r ->
  safe_log_name (w_now w) ∉ (b_writes b).*1 ->
  let log := safe_log_name (w_now w) in
  let report := timeout_text (VInt t) (w_output_dir w +:+ "/" +:+ log) in
  exists w',
    execute_with_timeout command cwd (VInt t) w = (Ret (text_result report), w') /\
    w_events w' =
      w_events w ++ [EvOpenW log; EvSpawn pid command; EvKill pid; EvWait pid; EvOpenA log] /\
    (pid ∉ w_children w') /\
    w_now w' = w_now w + r /\
    f_data <$> lookup_file log (w_files w') =
      Some (safe_header command cwd (VInt t) (w_ctime w (w_now w)) +:+
            timeout_marker (VInt t) (w_ctime w (w_now w + r))) /\
    is_timeout_report report = true /\
    is_success_report report = false /\
    is_error_report report = false /\
    PyStr.contains "use force_background=true" report = true.
Proof.
  intros Hw Hs Hfirst Hwait Hwr log report.
  eexists. split; [by apply (bounded_run_timeout command cwd t w pid b r) |].
  world_nf. split; [done |].
  split; [apply reaped_child_gone |].
  split; [done |].
  split; [by rewrite lookup_store_eq |].
  split; [done |]. split; [done |]. split; [done |].
  apply contains_spec.
  exists ("⏰ Command timed out after " +:+ pretty t +:+ "s and was terminated" +:+ nl +:+
          "This prevents AI from hanging on slow commands." +:+ nl +:+
          "For long-running commands, "),
         (nl +:+ "Log: " +:+ w_output_dir w +:+ "/" +:+ log).
  subst report. unfold timeout_text. rewrite !str_app_assoc. reflexivity.
Qed.

Lemma bounded_timeout_report_witness :
  exists w',
    execute_with_timeout "sleep 10" (VStr ".") (VInt 1) demo_world =
      (Ret (text_result
              (timeout_text (VInt 1) "/tmp/ai-terminal-outputs/safe_1700000000.log")), w') /\
    (4243 ∉ w_children w') /\
    w_now w' = 1700000010.
Proof.
  destruct (bounded_timeout_report "sleep 10" (VStr ".") 1 demo_world 4243
              (Behaviour (Some 10) (Some 10) (fun _ => Some 10) EmptyString 0 []) 10)
    as (w' & Hrun & _ & Hgone & Hnow & _).
  - reflexivity.
  - reflexivity.
  - reflexivity.
  - reflexivity.
  - simpl. apply not_elem_of_nil.
  - exists w'. split; [exact Hrun |]. split; [exact Hgone | exact Hnow].
Defined.
